(** * The payment reconciliation core of bot.py

    A shallow embedding of the parts of [bot.py] that sign gateway requests,
    normalise gateway responses, keep the [users] and [orders] tables and
    credit or debit point balances, followed by the properties proved about
    them.

    Conventions.
    - Python [str] values are byte strings holding UTF-8; comparing and
      searching them bytewise agrees with Python's comparison by code point.
    - The SQLite tables are finite maps keyed by their primary key.  The
      [TEXT] columns written with [str(Decimal)] and read back with
      [Decimal(text)] hold the [Decimal] itself.
    - Every [BEGIN IMMEDIATE ... COMMIT] block, and every implicit
      transaction closed by [db.commit()], is one function on the store:
      SQLite serialises writers, so an execution is a sequence of them.
    - The gateway, the clock and [uuid4] are oracles of the environment. *)

From Stdlib Require Import ZArith String Ascii List Lia Bool DecimalString.
From Stdlib Require OrderedTypeEx.
From stdpp Require Import gmap strings list fin_maps sorting.

Local Open Scope string_scope.
Local Open Scope Z_scope.

(** ** Python strings *)

Module PyStr.

(** The ASCII letters in the other case.  [str.upper] is applied by
    [bot.py] to a hex digest alone, which has no other letters; [str.lower]
    is applied to texts of the gateway and is a function of the
    environment ([str_lower] below). *)
Definition lower_ascii (c : ascii) : ascii :=
  let n := nat_of_ascii c in
  if ((65 <=? n) && (n <=? 90))%nat then ascii_of_nat (n + 32) else c.

Definition upper_ascii (c : ascii) : ascii :=
  let n := nat_of_ascii c in
  if ((97 <=? n) && (n <=? 122))%nat then ascii_of_nat (n - 32) else c.

Fixpoint map_chars (f : ascii -> ascii) (s : string) : string :=
  match s with
  | EmptyString => EmptyString
  | String c r => String (f c) (map_chars f r)
  end.

(** [s.upper()] of a hex digest. *)
Definition upper : string -> string := map_chars upper_ascii.

(** [needle in hay] on two strings. *)
Fixpoint contains (needle hay : string) : bool :=
  match hay with
  | EmptyString => String.prefix needle EmptyString
  | String _ rest => String.prefix needle hay || contains needle rest
  end.

(** [s in (a, b, ...)] / [s in {a, b, ...}] on strings. *)
Definition mem (s : string) (l : list string) : bool :=
  existsb (String.eqb s) l.

(** [str(n)] of an [int]. *)
Definition of_Z (n : Z) : string := NilEmpty.string_of_int (Z.to_int n).

(** The decimal digits of a natural number, ["0"] for zero. *)
Definition digits (n : Z) : string := NilZero.string_of_uint (N.to_uint (Z.to_N n)).

Fixpoint repeat (c : ascii) (n : nat) : string :=
  match n with
  | O => EmptyString
  | S k => String c (repeat c k)
  end.

Definition take (n : nat) (s : string) : string := String.substring 0 n s.
Definition drop (n : nat) (s : string) : string :=
  String.substring n (String.length s - n) s.

End PyStr.

(** ** Python values

    The values [r.json()] returns and the values of a request payload:
    [None], [bool], [int], [float], [str], [list] and [dict].  A [dict] is
    the list of its items in insertion order. *)

Inductive pyfloat : Type :=
  | FFin (m e : Z)        (* the finite float m * 2^e *)
  | FInf (negative : bool)
  | FNaN.

#[warnings="-register-all"]
Inductive pyval : Type :=
  | PNone
  | PBool (b : bool)
  | PInt (n : Z)
  | PFloat (f : pyfloat)
  | PStr (s : string)
  | PList (l : list pyval)
  | PDict (d : list (string * pyval)).

Abbreviation dict := (list (string * pyval)).

(** [f == n] for a float [f] and an integer [n]: Python compares the exact
    values. *)
Definition float_eq_int (f : pyfloat) (n : Z) : bool :=
  match f with
  | FFin m e => if 0 <=? e then m * 2 ^ e =? n else m =? n * 2 ^ (- e)
  | FInf _ => false
  | FNaN => false
  end.

(** [v == n] for an integer literal [n]; [True == 1] and [False == 0]. *)
Definition py_eq_int (v : pyval) (n : Z) : bool :=
  match v with
  | PBool b => (if b then 1 else 0) =? n
  | PInt m => m =? n
  | PFloat f => float_eq_int f n
  | _ => false
  end.

(** [bool(v)]. *)
Definition truthy (v : pyval) : bool :=
  match v with
  | PNone => false
  | PBool b => b
  | PInt n => negb (n =? 0)
  | PFloat f => negb (float_eq_int f 0)
  | PStr s => negb (String.eqb s "")
  | PList l => negb (Nat.eqb (length l) 0)
  | PDict d => negb (Nat.eqb (length d) 0)
  end.

(** [a or b]. *)
Definition py_or (a b : pyval) : pyval := if truthy a then a else b.

(** [isinstance(v, dict)] and [isinstance(v, str)]. *)
Definition is_dict (v : pyval) : bool :=
  match v with PDict _ => true | _ => false end.
Definition is_str (v : pyval) : bool :=
  match v with PStr _ => true | _ => false end.

(** [v == ""] for any value. *)
Definition py_eq_empty_str (v : pyval) : bool :=
  match v with PStr s => String.eqb s "" | _ => false end.

(** *** Dictionaries *)

(** [d.get(k)] as an option, [None] when the key is absent. *)
Fixpoint dict_lookup (d : dict) (k : string) : option pyval :=
  match d with
  | [] => None
  | (k', v) :: rest => if String.eqb k' k then Some v else dict_lookup rest k
  end.

(** [d.get(k, default)] and [d.get(k)] (default [None]). *)
Definition dict_get_default (d : dict) (k : string) (default : pyval) : pyval :=
  match dict_lookup d k with Some v => v | None => default end.
Definition dict_get (d : dict) (k : string) : pyval := dict_get_default d k PNone.

(** [d[k] = v]: an existing key keeps its place, a new one goes last. *)
Fixpoint dict_set (d : dict) (k : string) (v : pyval) : dict :=
  match d with
  | [] => [(k, v)]
  | (k', v') :: rest =>
      if String.eqb k' k then (k', v) :: rest else (k', v') :: dict_set rest k v
  end.

(** [{k: v for k, v in d.items() if keep(v)}]. *)
Definition dict_filter (keep : pyval -> bool) (d : dict) : dict :=
  List.filter (fun kv => keep (snd kv)) d.

(** A well-formed [dict] holds each key once. *)
Definition dict_wf (d : dict) : Prop := NoDup (map fst d).

(** [sorted(items, key=lambda x: x[0])]: a stable insertion sort on the
    keys. *)
Fixpoint insert_by_key (kv : string * pyval) (l : dict) : dict :=
  match l with
  | [] => [kv]
  | kv' :: rest =>
      if String.ltb (fst kv') (fst kv) then kv' :: insert_by_key kv rest
      else kv :: kv' :: rest
  end.

Definition sorted_by_key (items : dict) : dict :=
  fold_right insert_by_key [] items.

(** ** Decimal

    A finite [decimal.Decimal]: the number [coef * 10 ^ dexp].  Arithmetic
    runs in Python's default context: 28 significant digits, rounding half
    to even.  The exponent limits of the context (|exponent| up to 999999)
    and the sign of a zero are not modelled. *)

Record Decimal : Type := mkDecimal { coef : Z; dexp : Z }.

Module Dec.

Definition prec : Z := 28.

(** Both coefficients at the smaller of the two exponents. *)
Definition align (a b : Decimal) : Z * Z * Z :=
  let m := Z.min (dexp a) (dexp b) in
  (coef a * 10 ^ (dexp a - m), coef b * 10 ^ (dexp b - m), m).

(** Comparison is exact. *)
Definition cmp (a b : Decimal) : comparison :=
  let '(ca, cb, _) := align a b in ca ?= cb.

(** [a < b] and [a > b]. *)
Definition lt (a b : Decimal) : bool :=
  match cmp a b with Lt => true | _ => false end.
Definition gt (a b : Decimal) : bool :=
  match cmp a b with Gt => true | _ => false end.

(** The number of decimal digits of [|c|], 0 for 0. *)
Fixpoint count_digits (fuel : nat) (c : Z) : Z :=
  match fuel with
  | O => 0
  | S f => if c =? 0 then 0 else 1 + count_digits f (c / 10)
  end.

Definition ndigits (c : Z) : Z :=
  count_digits (S (Z.to_nat (Z.log2 (Z.abs c)))) (Z.abs c).

(** [c] without its last [k] digits, rounded half to even ([0 <= c], [0 < k]). *)
Definition round_half_even (c k : Z) : Z :=
  let p := 10 ^ k in
  let q := c / p in
  let r := c mod p in
  if (2 * r >? p) || ((2 * r =? p) && Z.odd q) then q + 1 else q.

(** [Decimal._fix]: round to the context's precision. *)
Definition fix_ (d : Decimal) : Decimal :=
  let n := ndigits (coef d) in
  if n <=? prec then d
  else
    let k := n - prec in
    let q := round_half_even (Z.abs (coef d)) k in
    if ndigits q >? prec
    then mkDecimal (Z.sgn (coef d) * (q / 10)) (dexp d + k + 1)
    else mkDecimal (Z.sgn (coef d) * q) (dexp d + k).

(** The exact sum and difference, at the smaller exponent. *)
Definition exact_add (a b : Decimal) : Decimal :=
  let '(ca, cb, m) := align a b in mkDecimal (ca + cb) m.
Definition exact_sub (a b : Decimal) : Decimal :=
  let '(ca, cb, m) := align a b in mkDecimal (ca - cb) m.

(** [a + b] and [a - b]. *)
Definition add (a b : Decimal) : Decimal := fix_ (exact_add a b).
Definition sub (a b : Decimal) : Decimal := fix_ (exact_sub a b).

(** [d] is not negative. *)
Definition nonneg (d : Decimal) : Prop := 0 <= coef d.

(** [Decimal("0")], [Decimal("3")] and [Decimal("10000")]. *)
Definition zero : Decimal := mkDecimal 0 0.
Definition of_Z (n : Z) : Decimal := mkDecimal n 0.

(** ["%+d" % n]. *)
Definition signed (n : Z) : string :=
  if n <? 0 then PyStr.of_Z n else "+" ++ PyStr.of_Z n.

(** [str(d)]: plain notation when the exponent is at most 0 and the number
    is not too small, scientific notation otherwise. *)
Definition to_str (d : Decimal) : string :=
  let sign := if coef d <? 0 then "-" else "" in
  let int_ := PyStr.digits (Z.abs (coef d)) in
  let len := Z.of_nat (String.length int_) in
  let leftdigits := dexp d + len in
  let dotplace := if (dexp d <=? 0) && (leftdigits >? -6) then leftdigits else 1 in
  let intpart :=
    if dotplace <=? 0 then "0"
    else if dotplace >=? len
         then int_ ++ PyStr.repeat "0" (Z.to_nat (dotplace - len))
         else PyStr.take (Z.to_nat dotplace) int_ in
  let fracpart :=
    if dotplace <=? 0 then "." ++ PyStr.repeat "0" (Z.to_nat (- dotplace)) ++ int_
    else if dotplace >=? len then ""
         else "." ++ PyStr.drop (Z.to_nat dotplace) int_ in
  let exp := if leftdigits =? dotplace then "" else "E" ++ signed (leftdigits - dotplace) in
  sign ++ intpart ++ fracpart ++ exp.

End Dec.

(** What [Decimal(text)] makes of a command argument: it raises
    [InvalidOperation], or yields a NaN, an infinity or a finite number. *)
Inductive DecimalArg : Type :=
  | ArgInvalid
  | ArgNaN
  | ArgInfinity (negative : bool)
  | ArgFinite (d : Decimal).

(** ** The environment

    What [bot.py] imports and does not define: the functions of [urllib],
    [hashlib], the builtin [repr] and [str.lower] with its Unicode case
    mapping, the values of [config.py], the HTTP exchange with the gateway,
    the clock and [uuid4]. *)

Record PyLib : Type := {
  (** [urllib.parse.urlencode(items, doseq=True)] *)
  urlencode : dict -> string;
  (** [urllib.parse.unquote] and [urllib.parse.unquote_plus] *)
  unquote : string -> string;
  unquote_plus : string -> string;
  (** [hashlib.md5(s.encode("utf-8")).hexdigest()] *)
  md5_hexdigest : string -> string;
  (** [str(v)] of a float, a list or a dict *)
  py_repr : pyval -> string;
  (** [s.lower()] *)
  str_lower : string -> string
}.

(** [OkayPayClient] after [__init__]: [id] and [token] are the stripped
    strings, [base] is the fixed URL prefix. *)
Record OkayPayClient : Type := {
  client_id : string;
  client_token : string
}.

Definition client_base : string := "https://api.okaypay.me/shop/".

Record Config : Type := {
  RETURN_URL : pyval;
  CALLBACK_URL : pyval
}.

(** One HTTP exchange inside the [try] of [_post]: either an exception
    (transport error, error status, malformed body), or the parsed JSON. *)
Inductive attempt : Type :=
  | Raised (err : string)
  | Replied (resp : pyval).

Record Request : Type := { req_url : string; req_body : dict }.

(** The oracles: the gateway's answer to the [n]-th request of the run, the
    value of [int(time.time())] at the [n]-th reading, and
    [uuid.uuid4().hex[:6]] at the [n]-th draw. *)
Record Env : Type := {
  gateway : nat -> Request -> attempt;
  clock : nat -> Z;
  uuid_hex6 : nat -> string
}.

(** A signing strategy: the keyword arguments of [_sign_data]. *)
Record strategy : Type := {
  keep_zero : bool;
  use_urldecode_plus : bool
}.

(** What a call that may raise gives back. *)
Inductive outcome (A : Type) : Type :=
  | Return (a : A)
  | Raise (err : string).
Arguments Return {A} a.
Arguments Raise {A} err.

(** ** The stores *)

(** A row of [users]; [points] is the balance. *)
Record UserRow : Type := {
  username : string;
  full_name : string;
  points : Decimal;
  user_created_at : Z
}.

(** A row of [orders]; [status] is 0 (unpaid) or 1 (paid), [credited] is 0
    or 1, [paid_at] is NULL until the order is credited. *)
Record OrderRow : Type := {
  user_id : Z;
  amount : Decimal;
  coin : string;
  order_id : string;
  pay_url : string;
  status : Z;
  credited : Z;
  created_at : Z;
  paid_at : option Z
}.

(** The database file, the log of the requests sent to the gateway, and the
    number of clock readings and of uuid draws so far. *)
Record World : Type := {
  users : gmap Z UserRow;
  orders : gmap string OrderRow;
  sent : list Request;
  ticks : nat;
  draws : nat
}.

(** [init_db] on a fresh file: both tables empty. *)
Definition init_world : World :=
  {| users := ∅; orders := ∅; sent := []; ticks := 0; draws := 0 |}.

(** A Telegram user as the handlers read it. *)
Record TgUser : Type := {
  tg_id : Z;
  tg_username : option string;
  tg_full_name : string
}.

(** ** A state monad over [World] *)

Definition M (A : Type) : Type := World -> A * World.

Definition ret {A : Type} (a : A) : M A := fun w => (a, w).

Definition bind {A B : Type} (m : M A) (k : A -> M B) : M B :=
  fun w => let (a, w') := m w in k a w'.

Notation "'let*' x := m 'in' k" := (bind m (fun x => k))
  (at level 10, x name, m at level 100, k at level 200, only parsing).

Definition set_users (us : gmap Z UserRow) (w : World) : World :=
  {| users := us; orders := orders w; sent := sent w;
     ticks := ticks w; draws := draws w |}.

Definition set_orders (os : gmap string OrderRow) (w : World) : World :=
  {| users := users w; orders := os; sent := sent w;
     ticks := ticks w; draws := draws w |}.

(** A reply sent to the chat: its text and its inline keyboard. *)
Inductive button : Type :=
  | UrlButton (label url : string)
  | CallbackButton (label data : string).

Record Reply : Type := { text : string; keyboard : list (list button) }.

Definition reply_text (s : string) : Reply := {| text := s; keyboard := [] |}.

(** The line feed of ["\n"]. *)
Definition LF : string := String (ascii_of_nat 10) EmptyString.

(** ** The specification's wording

    The definitions below follow the sentences of the specification, to be
    compared with the functions above. *)

Module Spec.

(** "absent", "empty string", "the literal string 0", "numeric zero"
    ([False] is the integer 0 in Python), "an empty collection". *)
Definition absent (v : pyval) : bool :=
  match v with PNone => true | _ => false end.
Definition empty_string (v : pyval) : bool :=
  match v with PStr EmptyString => true | _ => false end.
Definition literal_zero_string (v : pyval) : bool :=
  match v with PStr s => String.eqb s "0" | _ => false end.
Definition numeric_zero (v : pyval) : bool :=
  match v with
  | PInt n => n =? 0
  | PFloat (FFin m _) => m =? 0
  | PBool b => negb b
  | _ => false
  end.
Definition empty_collection (v : pyval) : bool :=
  match v with PList [] => true | PDict [] => true | _ => false end.

(** The filter of the strategy: which values are dropped. *)
Definition dropped (keepZero : bool) (v : pyval) : bool :=
  if keepZero then absent v || empty_string v
  else absent v || empty_string v || literal_zero_string v
       || numeric_zero v || empty_collection v.

(** The pairs in lexicographic order of their keys. *)
Definition key_le (a b : string * pyval) : Prop :=
  String.leb (fst a) (fst b) = true.

(** The "paid" vocabulary and the status sets. *)
Definition paid_words : list string := ["1"; "true"; "paid"; "success"].
Definition creation_statuses : list string := ["success"; "ok"; "1"; "true"].
Definition deposit_statuses : list string := ["success"; "ok"].

End Spec.

(** ** Sample data

    Concrete environments, users and stores on which the properties below
    are exemplified. *)

Module Sample.

(** Stand-ins for the library functions: the examples do not depend on
    what the first five compute; every text the examples lower-case is
    ASCII, where [str.lower] changes the letters [A]-[Z] alone. *)
Definition lib : PyLib :=
  {| urlencode := fun items => String.concat "&" (map fst items);
     unquote := fun s => s;
     unquote_plus := fun s => s;
     md5_hexdigest := fun _ => "d41d8cd98f00b204e9800998ecf8427e";
     py_repr := fun _ => "{}";
     str_lower := PyStr.map_chars PyStr.lower_ascii |}.

Definition okpay : OkayPayClient :=
  {| client_id := "10001"; client_token := "secret" |}.

Definition cfg : Config :=
  {| RETURN_URL := PStr "https://t.me/topup_bot";
     CALLBACK_URL := PStr "https://example.org/callback" |}.

(** A gateway that accepts every request and reports every order paid. *)
Definition resp_paid : pyval :=
  PDict [ ("code", PInt 10000);
          ("data", PDict [ ("status", PStr "paid");
                           ("order_id", PStr "G-1");
                           ("pay_url", PStr "https://pay.example/G-1") ]) ].

(** A gateway that never answers. *)
Definition gateway_down : nat -> Request -> attempt :=
  fun _ _ => Raised "ConnectTimeout".

(** A gateway that refuses every signature, with a response that also
    carries code 0 and a checkout URL. *)
Definition resp_refused_with_url : pyval :=
  PDict [ ("code", PInt 0);
          ("msg", PStr "身份认证失败");
          ("data", PDict [ ("pay_url", PStr "https://pay.example/x") ]) ].

Definition env_with (gw : nat -> Request -> attempt) : Env :=
  {| gateway := gw;
     clock := fun n => 1700000000 + Z.of_nat n;
     uuid_hex6 := fun _ => "a1b2c3" |}.

Definition env_paid : Env := env_with (fun _ _ => Replied resp_paid).
Definition env_down : Env := env_with gateway_down.
Definition env_refused : Env := env_with (fun _ _ => Replied resp_refused_with_url).

Definition alice : TgUser :=
  {| tg_id := 7; tg_username := Some "alice"; tg_full_name := "Alice" |}.

Definition alice_row (balance : Decimal) : UserRow :=
  {| username := "alice"; full_name := "Alice"; points := balance;
     user_created_at := 1700000000 |}.

(** An order of 5 for Alice, not yet paid. *)
Definition order5 : OrderRow :=
  {| user_id := 7; amount := Dec.of_Z 5; coin := "USDT";
     order_id := "G-1"; pay_url := "https://pay.example/G-1";
     status := 0; credited := 0; created_at := 1700000002; paid_at := None |}.

(** Alice with balance 0 and her pending order. *)
Definition w_pending : World :=
  {| users := {[ 7 := alice_row Dec.zero ]};
     orders := {[ "cz_7_1700000001_a1b2c3" := order5 ]};
     sent := []; ticks := 2; draws := 1 |}.

(** The same order when its owner has no row in [users]. *)
Definition w_orphan : World :=
  {| users := ∅;
     orders := {[ "cz_7_1700000001_a1b2c3" := order5 ]};
     sent := []; ticks := 2; draws := 1 |}.

(** Alice with balance 5. *)
Definition w_alice5 : World :=
  {| users := {[ 7 := alice_row (Dec.of_Z 5) ]};
     orders := ∅; sent := []; ticks := 1; draws := 0 |}.

(** Deposit-check responses: a status that only the creation sets accept,
    and a payment status in upper case. *)
Definition resp_status_1 : pyval :=
  PDict [ ("status", PStr "1"); ("data", PDict [ ("status", PStr "paid") ]) ].
Definition resp_upper_paid : pyval :=
  PDict [ ("code", PInt 0); ("data", PDict [ ("status", PStr "PAID") ]) ].

(** A payload with a zero, an empty string and an absent value. *)
Definition payload : dict :=
  [ ("unique_id", PStr "cz_7_1700000001_a1b2c3");
    ("status", PInt 0);
    ("name", PStr "");
    ("memo", PNone);
    ("amount", PStr "5") ].

End Sample.

(** Further sample data. *)

Module SampleX.

(** A store in which the identifier [cz] will generate next is taken. *)
Definition w_taken : World :=
  {| users := ∅;
     orders := {[ "cz_7_1700000001_a1b2c3" := Sample.order5 ]};
     sent := []; ticks := 0; draws := 0 |}.

(** Alice's order after it was credited at time 1700000009. *)
Definition order5_credited : OrderRow :=
  {| user_id := 7; amount := Dec.of_Z 5; coin := "USDT";
     order_id := "G-1"; pay_url := "https://pay.example/G-1";
     status := 1; credited := 1; created_at := 1700000002;
     paid_at := Some 1700000009 |}.

Definition w_credited : World :=
  {| users := {[ 7 := Sample.alice_row (Dec.of_Z 5) ]};
     orders := {[ "cz_7_1700000001_a1b2c3" := order5_credited ]};
     sent := []; ticks := 9; draws := 1 |}.

(** Alice after a credited top-up of 5 and a second [/cz] of 7.5. *)
Definition order5_paid : OrderRow :=
  {| user_id := 7; amount := Dec.of_Z 5; coin := "USDT";
     order_id := "G-1"; pay_url := "https://pay.example/G-1";
     status := 1; credited := 1; created_at := 1700000002;
     paid_at := Some 1700000003 |}.

Definition order75 : OrderRow :=
  {| user_id := 7; amount := mkDecimal 75 (-1); coin := "USDT";
     order_id := "G-1"; pay_url := "https://pay.example/G-1";
     status := 0; credited := 0; created_at := 1700000006; paid_at := None |}.

Definition w_second_topup : World :=
  {| users := {[ 7 := Sample.alice_row (Dec.of_Z 5) ]};
     orders := {[ "cz_7_1700000001_a1b2c3" := order5_paid;
                  "cz_7_1700000005_a1b2c3" := order75 ]};
     sent := []; ticks := 7; draws := 2 |}.

(** An amount of 29 significant digits, [3.0000000000000000000000000015]. *)
Definition amount29 : Decimal := mkDecimal 30000000000000000000000000015 (-28).

(** A gateway that reports the order not yet paid. *)
Definition resp_unpaid : pyval :=
  PDict [ ("code", PInt 10000); ("data", PDict [ ("status", PStr "0") ]) ].

Definition env_unpaid : Env := Sample.env_with (fun _ _ => Replied resp_unpaid).

(** The words of the message ["/dt Zhang 110101199003070000"]. *)
Definition words_dt : list string := ["/dt"; "Zhang"; "110101199003070000"].

(** A creation response with an empty nested URL and a top-level one. *)
Definition resp_top_url : dict :=
  [ ("status", PStr "OK");
    ("data", PDict [ ("pay_url", PStr "") ]);
    ("payUrl", PStr "https://pay.example/top") ].

End SampleX.

Section Bot.

Context (lib : PyLib) (okpay : OkayPayClient) (cfg : Config) (env : Env).

(** [int(time.time())]: the next reading of the clock. *)
Definition time_now : M Z := fun w =>
  (clock env (ticks w),
   {| users := users w; orders := orders w; sent := sent w;
      ticks := S (ticks w); draws := draws w |}).

(** [uuid.uuid4().hex[:6]]: the next draw. *)
Definition uuid4_hex6 : M string := fun w =>
  (uuid_hex6 env (draws w),
   {| users := users w; orders := orders w; sent := sent w;
      ticks := ticks w; draws := S (draws w) |}).

(** [client.post(url, data=body)], [raise_for_status()] and [r.json()]. *)
Definition http_post (url : string) (body : dict) : M attempt := fun w =>
  let req := {| req_url := url; req_body := body |} in
  (gateway env (length (sent w)) req,
   {| users := users w; orders := orders w; sent := sent w ++ [req];
      ticks := ticks w; draws := draws w |}).

(** [str(v)]. *)
Definition py_str (v : pyval) : string :=
  match v with
  | PNone => "None"
  | PBool true => "True"
  | PBool false => "False"
  | PInt n => PyStr.of_Z n
  | PStr s => s
  | _ => py_repr lib v
  end.

(** *** OkayPayClient *)

(** The third test is [value == 0 or value == 0.0]. *)
Definition _php_truthy (value : pyval) : bool :=
  if match value with PNone => true | _ => false end then false
  else if match value with PBool false => true | _ => false end then false
  else if py_eq_int value 0 || py_eq_int value 0 then false
  else if match value with
          | PStr s => String.eqb s "" || String.eqb s "0"
          | _ => false
          end then false
  else if match value with
          | PList l => Nat.eqb (length l) 0
          | PDict d => Nat.eqb (length d) 0
          | _ => false
          end then false
  else true.

(** The filter of the [keep_zero] branch: [v is not None and v != ""]. *)
Definition not_none_nor_empty (v : pyval) : bool :=
  negb (match v with PNone => true | _ => false end) && negb (py_eq_empty_str v).

Definition _sign_data (data : dict) (st : strategy) : dict :=
  let payload := dict_set data "id" (PStr (client_id okpay)) in
  let filtered :=
    if keep_zero st then dict_filter not_none_nor_empty payload
    else dict_filter _php_truthy payload in
  let sorted_items := sorted_by_key filtered in
  let query := urlencode lib sorted_items in
  let decoded :=
    if use_urldecode_plus st then unquote_plus lib query else unquote lib query in
  let sign_src := decoded ++ "&token=" ++ client_token okpay in
  let sign := PyStr.upper (md5_hexdigest lib sign_src) in
  let body := filtered in
  dict_set body "sign" (PStr sign).

Definition _is_auth_failed (resp : pyval) : bool :=
  match resp with
  | PDict r =>
      let status := str_lower lib (py_str (dict_get_default r "status" (PStr ""))) in
      let msg := py_str (dict_get_default r "msg" (PStr ""))
                 ++ py_str (dict_get_default r "message" (PStr "")) in
      PyStr.contains "身份认证失败" msg
      || (PyStr.mem status ["warning"; "error"] && PyStr.contains "认证" msg)
  | _ => false
  end.

(** The list [strategies] of [_post]. *)
Definition strategies : list strategy :=
  [ {| keep_zero := false; use_urldecode_plus := true |};
    {| keep_zero := true;  use_urldecode_plus := true |};
    {| keep_zero := false; use_urldecode_plus := false |};
    {| keep_zero := true;  use_urldecode_plus := false |} ].

(** The [for st in strategies] loop of [_post] and what follows it;
    [last_resp] and [last_err] start as [None]. *)
Fixpoint post_loop (url : string) (data : dict) (sts : list strategy)
    (last_resp : pyval) (last_err : option string) : M (outcome pyval) :=
  match sts with
  | [] =>
      match last_resp with
      | PNone =>
          ret (Raise ("OkayPay 请求失败: "
                      ++ match last_err with Some e => e | None => "None" end))
      | _ => ret (Return last_resp)
      end
  | st :: rest =>
      let* r := http_post url (_sign_data data st) in
      match r with
      | Replied resp =>
          if _is_auth_failed resp then post_loop url data rest resp last_err
          else ret (Return resp)
      | Raised e => post_loop url data rest last_resp (Some e)
      end
  end.

Definition _post (endpoint : string) (data : dict) : M (outcome pyval) :=
  post_loop (client_base ++ endpoint) data strategies PNone None.

Definition pay_link (unique_id : string) (amount : Decimal) (name : string)
  : M (outcome pyval) :=
  let data :=
    [ ("unique_id", PStr unique_id);
      ("name", PStr name);
      ("amount", PStr (Dec.to_str amount));
      ("return_url", RETURN_URL cfg);
      ("coin", PStr "USDT");
      ("callback_url", CALLBACK_URL cfg) ] in
  _post "payLink" data.

Definition check_deposit (unique_id : string) : M (outcome pyval) :=
  let data := [ ("unique_id", PStr unique_id) ] in
  _post "checkDeposit" data.

(** *** Response normalisation *)

Definition ok_code (code : pyval) : bool :=
  py_eq_int code 10000 || py_eq_int code 0 || py_eq_int code 200.

(** [resp.get("data", {}) if isinstance(resp.get("data"), dict) else {}]. *)
Definition data_of (r : dict) : dict :=
  match dict_get r "data" with
  | PDict _ =>
      match dict_get_default r "data" (PDict []) with
      | PDict d => d
      | _ => []
      end
  | _ => []
  end.

Definition _extract_pay_result (resp : pyval) : bool * string * string :=
  match resp with
  | PDict r =>
      let code := dict_get r "code" in
      let status := str_lower lib (py_str (dict_get_default r "status" (PStr ""))) in
      let data := data_of r in
      let order_id :=
        py_or (dict_get data "order_id")
          (py_or (dict_get data "orderId")
             (py_or (dict_get r "order_id")
                (py_or (dict_get r "orderId") (PStr "")))) in
      let pay_url :=
        py_or (dict_get data "pay_url")
          (py_or (dict_get data "payUrl")
             (py_or (dict_get data "url")
                (py_or (dict_get data "link")
                   (py_or (dict_get r "pay_url")
                      (py_or (dict_get r "payUrl") (PStr "")))))) in
      let ok_status := PyStr.mem status ["success"; "ok"; "1"; "true"] in
      let success := truthy pay_url && (ok_code code || ok_status) in
      (success, py_str order_id, py_str pay_url)
  | _ => (false, "", "")
  end.

Definition _extract_paid_status (resp : pyval) : bool :=
  match resp with
  | PDict r =>
      let code := dict_get r "code" in
      let status := str_lower lib (py_str (dict_get_default r "status" (PStr ""))) in
      let data := data_of r in
      let pay_status :=
        dict_get_default data "status" (dict_get_default data "pay_status" (PInt 0)) in
      let paid_flag := PyStr.mem (py_str pay_status) ["1"; "true"; "paid"; "success"] in
      if ok_code code && paid_flag then true
      else if PyStr.mem status ["success"; "ok"] && paid_flag then true
      else false
  | _ => false
  end.

(** *** The database functions *)

Definition ensure_user (user : TgUser) : M unit :=
  let* now := time_now in
  fun w =>
    let name := match tg_username user with Some n => n | None => "" end in
    let inserted :=
      match users w !! tg_id user with
      | Some _ => users w
      | None =>
          <[tg_id user := {| username := name; full_name := tg_full_name user;
                             points := Dec.zero; user_created_at := now |}]> (users w)
      end in
    let updated :=
      alter (fun row => {| username := name; full_name := tg_full_name user;
                           points := points row;
                           user_created_at := user_created_at row |})
            (tg_id user) inserted in
    (tt, set_users updated w).

Definition get_points (uid : Z) : M Decimal := fun w =>
  match users w !! uid with
  | None => (Dec.zero, w)
  | Some row => (points row, w)
  end.

(** [UPDATE users SET points=? WHERE user_id=?]. *)
Definition update_points (uid : Z) (new_points : Decimal)
    (us : gmap Z UserRow) : gmap Z UserRow :=
  alter (fun row => {| username := username row; full_name := full_name row;
                       points := new_points;
                       user_created_at := user_created_at row |}) uid us.

Definition deduct_points_if_enough (uid : Z) (amount : Decimal) : M bool := fun w =>
  let current :=
    match users w !! uid with Some row => points row | None => Dec.zero end in
  if Dec.lt current amount then (false, w)
  else
    let new_points := Dec.sub current amount in
    (true, set_users (update_points uid new_points (users w)) w).

(** The [INSERT] fails with [IntegrityError] when the key is taken. *)
Definition create_order (unique_id : string) (uid : Z) (amount : Decimal)
    (order_id pay_url : string) : M (outcome unit) :=
  let* now := time_now in
  fun w =>
    match orders w !! unique_id with
    | Some _ => (Raise "UNIQUE constraint failed: orders.unique_id", w)
    | None =>
        let row := {| user_id := uid; amount := amount; coin := "USDT";
                      order_id := order_id; pay_url := pay_url;
                      status := 0; credited := 0;
                      created_at := now; paid_at := None |} in
        (Return tt, set_orders (<[unique_id := row]> (orders w)) w)
    end.

Definition get_order (unique_id : string) : M (option OrderRow) := fun w =>
  (orders w !! unique_id, w).

(** [UPDATE orders SET status=1, credited=1, paid_at=? WHERE unique_id=?]. *)
Definition set_paid_credited (now : Z) (row : OrderRow) : OrderRow :=
  {| user_id := user_id row; amount := amount row; coin := coin row;
     order_id := order_id row; pay_url := pay_url row;
     status := 1; credited := 1;
     created_at := created_at row; paid_at := Some now |}.

Definition MSG_ORDER_MISSING : string := "订单不存在".
Definition MSG_ALREADY_CREDITED : string := "该订单已入账，无需重复操作。".
Definition msg_credited (amount : Decimal) : string :=
  "充值成功✅ 已到账 " ++ Dec.to_str amount ++ " 积分".

Definition mark_order_paid_and_credit (unique_id : string) : M (bool * string) :=
  fun w =>
    match orders w !! unique_id with
    | None => ((false, MSG_ORDER_MISSING), w)
    | Some row =>
        if credited row =? 1 then ((true, MSG_ALREADY_CREDITED), w)
        else
          (let* now := time_now in
           fun w1 =>
             let w2 := set_orders (alter (set_paid_credited now) unique_id (orders w1)) w1 in
             let current :=
               match users w2 !! user_id row with
               | Some u => points u
               | None => Dec.zero
               end in
             let new_points := Dec.add current (amount row) in
             let w3 := set_users (update_points (user_id row) new_points (users w2)) w2 in
             ((true, msg_credited (amount row)), w3)) w
    end.

(** *** The handlers

    A handler returns the reply it sends, or raises. *)

Definition USAGE_CZ : string := "请使用 /cz [金额]".
Definition MSG_TOO_LOW : string := "金额过低,请至少充值3U❌️".
Definition MSG_TOO_HIGH : string := "金额过高,最高单次充值一万U!❌️".
Definition MSG_CREATE_RAISED : string := "创建支付失败，请稍后再试❌️".
Definition msg_create_failed (resp : pyval) : string :=
  "创建支付失败❌️" ++ LF ++ "返回: " ++ py_str resp.

(** [s or default] on strings. *)
Definition str_or (s default : string) : string :=
  if String.eqb s "" then default else s.

Definition reply_order_created (unique_id order_id pay_url : string)
    (amount : Decimal) : Reply :=
  {| text :=
       "订单已创建" ++ LF
       ++ "订单号: <code>" ++ str_or order_id "未知" ++ "</code>" ++ LF
       ++ "金额: <b>" ++ Dec.to_str amount ++ " USDT</b>" ++ LF
       ++ "请先完成支付，再点击“我已支付，点击查询”";
     keyboard :=
       [ [UrlButton "💳 去支付" pay_url];
         [CallbackButton "✅ 我已支付，点击查询" ("checkpay:" ++ unique_id)] ] |}.

(** [cz] from the construction of [unique_id] on: the amount has passed
    both bounds. *)
Definition cz_create (user : TgUser) (amount : Decimal) : M (outcome Reply) :=
  let* now := time_now in
  let* hex := uuid4_hex6 in
  let unique_id :=
    "cz_" ++ PyStr.of_Z (tg_id user) ++ "_" ++ PyStr.of_Z now ++ "_" ++ hex in
  let* r := pay_link unique_id amount ("TG充值_" ++ PyStr.of_Z (tg_id user)) in
  match r with
  | Raise _ => ret (Return (reply_text MSG_CREATE_RAISED))
  | Return resp =>
      let '(success, order_id, pay_url) := _extract_pay_result resp in
      if negb success then ret (Return (reply_text (msg_create_failed resp)))
      else
        let* c := create_order unique_id (tg_id user) amount (str_or order_id "") pay_url in
        match c with
        | Raise e => ret (Raise e)
        | Return _ =>
            ret (Return (reply_order_created unique_id order_id pay_url amount))
        end
  end.

(** [cz]; each member of [args] is what [Decimal()] makes of the word. *)
Definition cz (user : TgUser) (args : list DecimalArg) : M (outcome Reply) :=
  let* _ := ensure_user user in
  match args with
  | [arg] =>
      match arg with
      | ArgInvalid => ret (Return (reply_text USAGE_CZ))
      | ArgNaN => ret (Raise "InvalidOperation")
      | ArgInfinity negative =>
          if negative then ret (Return (reply_text MSG_TOO_LOW))
          else ret (Return (reply_text MSG_TOO_HIGH))
      | ArgFinite amount =>
          if Dec.lt amount (Dec.of_Z 3) then ret (Return (reply_text MSG_TOO_LOW))
          else if Dec.gt amount (Dec.of_Z 10000)
               then ret (Return (reply_text MSG_TOO_HIGH))
               else cz_create user amount
      end
  | _ => ret (Return (reply_text USAGE_CZ))
  end.

Definition MSG_NO_ORDER : string := "订单不存在或已失效❌️".
Definition MSG_NOT_YOURS : string := "这不是你的订单❌️".
Definition MSG_CREDITED_BEFORE : string := "该订单已入账，无需重复查询。".
Definition MSG_QUERY_FAILED : string := "查询失败，请稍后重试❌️".
Definition MSG_CREDIT_FAILED : string := "入账失败，请联系管理员".
Definition MSG_NOT_PAID : string := "暂未检测到支付成功，请完成支付后再查询。".

(** [handle_check_payment(q, unique_id)] with [from_id = q.from_user.id]. *)
Definition handle_check_payment (from_id : Z) (unique_id : string) : M Reply :=
  let* row := get_order unique_id in
  match row with
  | None => ret (reply_text MSG_NO_ORDER)
  | Some row =>
      if negb (from_id =? user_id row) then ret (reply_text MSG_NOT_YOURS)
      else if credited row =? 1 then ret (reply_text MSG_CREDITED_BEFORE)
      else
        let* r := check_deposit unique_id in
        match r with
        | Raise _ => ret (reply_text MSG_QUERY_FAILED)
        | Return resp =>
            if _extract_paid_status resp then
              let* res := mark_order_paid_and_credit unique_id in
              let '(ok, msg) := res in
              ret (reply_text (if ok then msg else MSG_CREDIT_FAILED))
            else ret (reply_text MSG_NOT_PAID)
        end
  end.

(** *** Interleaved executions

    [handle_check_payment] suspends at its three [await]s on the store and
    on the gateway; other handlers run in between.  A task is the handler
    cut at these points. *)

Inductive chk_pc : Type :=
  | ChkLookup              (* about to call [get_order] *)
  | ChkQuery               (* about to call [check_deposit] *)
  | ChkCredit              (* about to call [mark_order_paid_and_credit] *)
  | ChkDone (r : Reply).   (* has replied *)

Definition chk_step (from_id : Z) (unique_id : string) (pc : chk_pc) : M chk_pc :=
  match pc with
  | ChkLookup =>
      let* row := get_order unique_id in
      match row with
      | None => ret (ChkDone (reply_text MSG_NO_ORDER))
      | Some row =>
          if negb (from_id =? user_id row) then ret (ChkDone (reply_text MSG_NOT_YOURS))
          else if credited row =? 1 then ret (ChkDone (reply_text MSG_CREDITED_BEFORE))
          else ret ChkQuery
      end
  | ChkQuery =>
      let* r := check_deposit unique_id in
      match r with
      | Raise _ => ret (ChkDone (reply_text MSG_QUERY_FAILED))
      | Return resp =>
          if _extract_paid_status resp then ret ChkCredit
          else ret (ChkDone (reply_text MSG_NOT_PAID))
      end
  | ChkCredit =>
      let* res := mark_order_paid_and_credit unique_id in
      let '(ok, msg) := res in
      ret (ChkDone (reply_text (if ok then msg else MSG_CREDIT_FAILED)))
  | ChkDone r => ret (ChkDone r)
  end.

(** Two calls for the same order by the same user under a schedule:
    [true] lets the first call take its next step, [false] the second. *)
Fixpoint run_pair (from_id : Z) (unique_id : string) (schedule : list bool)
    (a b : chk_pc) : M (chk_pc * chk_pc) :=
  match schedule with
  | [] => ret (a, b)
  | true :: rest =>
      let* a' := chk_step from_id unique_id a in
      run_pair from_id unique_id rest a' b
  | false :: rest =>
      let* b' := chk_step from_id unique_id b in
      run_pair from_id unique_id rest a b'
  end.

(** The transactions the handlers issue against the database, with any
    arguments: every execution, interleaved or not, is a sequence of them. *)
Inductive txn : Type :=
  | TxEnsureUser (user : TgUser)
  | TxDeduct (uid : Z) (amount : Decimal)
  | TxCreateOrder (unique_id : string) (uid : Z) (amount : Decimal)
      (order_id pay_url : string)
  | TxMark (unique_id : string).

Definition exec_txn (t : txn) (w : World) : World :=
  match t with
  | TxEnsureUser user => snd (ensure_user user w)
  | TxDeduct uid amount => snd (deduct_points_if_enough uid amount w)
  | TxCreateOrder unique_id uid amount oid url =>
      snd (create_order unique_id uid amount oid url w)
  | TxMark unique_id => snd (mark_order_paid_and_credit unique_id w)
  end.

Definition exec_txns (ts : list txn) (w : World) : World :=
  fold_left (fun w t => exec_txn t w) ts w.

(** Any run of the service: transactions issued by interleaved handlers,
    and whole handler calls. *)
Inductive op : Type :=
  | OpTxn (t : txn)
  | OpCz (user : TgUser) (args : list DecimalArg)
  | OpCheckPayment (from_id : Z) (unique_id : string).

Definition exec_op (o : op) (w : World) : World :=
  match o with
  | OpTxn t => exec_txn t w
  | OpCz user args => snd (cz user args w)
  | OpCheckPayment from_id unique_id => snd (handle_check_payment from_id unique_id w)
  end.

Definition exec_ops (os : list op) (w : World) : World :=
  fold_left (fun w o => exec_op o w) os w.

(** [cz_create] up to and including the call of [pay_link]: the order's
    [unique_id] and what the call gave. *)
Definition cz_link (user : TgUser) (amount : Decimal) : M (string * outcome pyval) :=
  let* now := time_now in
  let* hex := uuid4_hex6 in
  let unique_id :=
    "cz_" ++ PyStr.of_Z (tg_id user) ++ "_" ++ PyStr.of_Z now ++ "_" ++ hex in
  let* r := pay_link unique_id amount ("TG充值_" ++ PyStr.of_Z (tg_id user)) in
  ret (unique_id, r).

(** The row [create_order] inserts. *)
Definition pending_order (uid : Z) (amount : Decimal) (order_id pay_url : string)
    (now : Z) : OrderRow :=
  {| user_id := uid; amount := amount; coin := "USDT";
     order_id := order_id; pay_url := pay_url;
     status := 0; credited := 0; created_at := now; paid_at := None |}.

(** *** Reading [_post] off the gateway's answers *)

(** The requests [_post] would send for the strategies [sts], and the
    gateway's answers to them when the first is the [n]-th request of the
    run. *)
Definition requests (url : string) (data : dict) (sts : list strategy) : list Request :=
  map (fun st => {| req_url := url; req_body := _sign_data data st |}) sts.

Fixpoint answers (n : nat) (reqs : list Request) : list attempt :=
  match reqs with
  | [] => []
  | req :: rest => gateway env n req :: answers (S n) rest
  end.

(** An answer that makes [_post] go on to the next strategy. *)
Definition refused (a : attempt) : bool :=
  match a with
  | Raised _ => true
  | Replied resp => _is_auth_failed resp
  end.

Definition is_raised (a : attempt) : bool :=
  match a with Raised _ => true | Replied _ => false end.

(** The last response among the answers, if any. *)
Fixpoint last_response (l : list attempt) : option pyval :=
  match l with
  | [] => None
  | Raised _ :: rest => last_response rest
  | Replied resp :: rest =>
      match last_response rest with
      | Some r => Some r
      | None => Some resp
      end
  end.

(** The first answer that is a response and no authentication failure,
    with its position. *)
Fixpoint first_accepted (l : list attempt) : option (nat * pyval) :=
  match l with
  | [] => None
  | a :: rest =>
      match a with
      | Replied resp =>
          if _is_auth_failed resp then
            match first_accepted rest with
            | Some (i, r) => Some (S i, r)
            | None => None
            end
          else Some (O, resp)
      | Raised _ =>
          match first_accepted rest with
          | Some (i, r) => Some (S i, r)
          | None => None
          end
      end
  end.

(** *** The specification's wording, continued *)

(** The merchant id put into the payload, and what the filter keeps. *)
Definition spec_kept (keepZero : bool) (payload : dict) : dict :=
  List.filter (fun kv => negb (Spec.dropped keepZero (snd kv)))
    (dict_set payload "id" (PStr (client_id okpay))).

(** The signature of the pairs [pairs], taken in this order: URL-encode,
    decode per [plusAsSpace], append the token, MD5 in upper-case hex. *)
Definition spec_signature (pairs : dict) (plusAsSpace : bool) : string :=
  let encoded := urlencode lib pairs in
  let decoded := if plusAsSpace then unquote_plus lib encoded else unquote lib encoded in
  PyStr.upper (md5_hexdigest lib (decoded ++ "&token=" ++ client_token okpay)).

(** The payment-status field of a deposit-check response. *)
Definition pay_status_of (r : dict) : pyval :=
  dict_get_default (data_of r) "status"
    (dict_get_default (data_of r) "pay_status" (PInt 0)).

Definition status_of (r : dict) : string :=
  str_lower lib (py_str (dict_get_default r "status" (PStr ""))).

(** [str.lower] leaves the words [l], which have no upper-case letter, as
    they are. *)
Definition lower_fixes (l : list string) : Prop :=
  Forall (fun word => str_lower lib word = word) l.

(** "Paid" as the specification words it: a success code or a success
    status from the sets accepted for creation results, and a payment
    status that is, ignoring case, one of the paid words. *)
Definition spec_paid (resp : pyval) : bool :=
  match resp with
  | PDict r =>
      (ok_code (dict_get r "code") || PyStr.mem (status_of r) Spec.creation_statuses)
      && PyStr.mem (str_lower lib (py_str (pay_status_of r))) Spec.paid_words
  | _ => false
  end.

(** The gateway reports the order paid whenever it is asked. *)
Definition gateway_reports_paid (unique_id : string) : Prop :=
  forall w, exists resp,
    fst (check_deposit unique_id w) = Return resp
    /\ _extract_paid_status resp = true.

(** Balances and amounts that are not negative. *)
Definition balances_nonneg (w : World) : Prop :=
  forall uid row, users w !! uid = Some row -> Dec.nonneg (points row).

Definition amounts_nonneg (w : World) : Prop :=
  forall unique_id row, orders w !! unique_id = Some row -> Dec.nonneg (amount row).

(** A transaction as [cz] issues it creates orders for amounts that passed
    its bounds; such amounts are not negative. *)
Definition txn_amount_ok (t : txn) : Prop :=
  match t with
  | TxCreateOrder _ _ amount _ _ => Dec.nonneg amount
  | _ => True
  end.

(** The steps a task has left at most. *)
Definition steps_left (pc : chk_pc) : nat :=
  match pc with
  | ChkLookup => 3
  | ChkQuery => 2
  | ChkCredit => 1
  | ChkDone _ => 0
  end.

(** The turns a schedule gives to the first ([true]) or second call. *)
Definition turns (who : bool) (schedule : list bool) : nat :=
  length (List.filter (Bool.eqb who) schedule).

(** What [_post] does after its loop with the values [last_resp] and
    [last_err] have then. *)
Definition final_outcome (last_resp : pyval) (last_err : option string) : outcome pyval :=
  match last_resp with
  | PNone =>
      Raise ("OkayPay 请求失败: "
             ++ match last_err with Some e => e | None => "None" end)
  | _ => Return last_resp
  end.

(** The last exception among the answers, [init] if there is none. *)
Fixpoint last_error (l : list attempt) (init : option string) : option string :=
  match l with
  | [] => init
  | Raised e :: rest => last_error rest (Some e)
  | Replied _ :: rest => last_error rest init
  end.

(** The world after the requests [reqs] went out. *)
Definition push_sent (reqs : list Request) (w : World) : World :=
  {| users := users w; orders := orders w; sent := sent w ++ reqs;
     ticks := ticks w; draws := draws w |}.

(** The payload [pay_link] builds. *)
Definition pay_link_data (unique_id : string) (amount : Decimal) (name : string) : dict :=
  [ ("unique_id", PStr unique_id);
    ("name", PStr name);
    ("amount", PStr (Dec.to_str amount));
    ("return_url", RETURN_URL cfg);
    ("coin", PStr "USDT");
    ("callback_url", CALLBACK_URL cfg) ].

(** I1: a credited order is a paid order. *)
Definition credited_implies_paid (w : World) : Prop :=
  forall unique_id row,
    orders w !! unique_id = Some row -> credited row = 1 -> status row = 1.

(** How one transaction or handler call changes the [orders] table: not
    at all, by inserting a pending row, or by the credit write. *)
Definition orders_step (os os' : gmap string OrderRow) : Prop :=
  os' = os
  \/ (exists unique_id row,
        status row = 0 /\ credited row = 0 /\ os' = <[unique_id := row]> os)
  \/ (exists unique_id now, os' = alter (set_paid_credited now) unique_id os).

(** *** Two calls for one order *)

(** The replies that tell the user the order had been credited before. *)
Definition idempotent_reply (r : Reply) : Prop :=
  r = reply_text MSG_CREDITED_BEFORE \/ r = reply_text MSG_ALREADY_CREDITED.

(** A task that has not replied; a task that has not replied or has
    replied that the order had been credited before. *)
Definition waiting (pc : chk_pc) : Prop :=
  match pc with ChkDone _ => False | _ => True end.

Definition idle_or_settled (pc : chk_pc) : Prop :=
  match pc with ChkDone r => idempotent_reply r | _ => True end.

(** What holds while two calls for the uncredited order [row] of the world
    [w0] run: either nothing was written and neither has replied, or the
    credit was written once, by the call that replied so. *)
Definition credit_inv (w0 : World) (unique_id : string) (row : OrderRow) (u : UserRow)
    (a b : chk_pc) (w : World) : Prop :=
  (orders w = orders w0 /\ users w = users w0 /\ waiting a /\ waiting b)
  \/ ((exists now, orders w = alter (set_paid_credited now) unique_id (orders w0))
      /\ users w = update_points (user_id row) (Dec.add (points u) (amount row)) (users w0)
      /\ ((a = ChkDone (reply_text (msg_credited (amount row))) /\ idle_or_settled b)
          \/ (b = ChkDone (reply_text (msg_credited (amount row))) /\ idle_or_settled a))).

(** Every order's owner has a row in [users]. *)
Definition owners_registered (w : World) : Prop :=
  forall unique_id row,
    orders w !! unique_id = Some row -> is_Some (users w !! user_id row).

(** The steps of the service in which an order is only created by [cz]. *)
Definition by_handlers (o : op) : Prop :=
  match o with
  | OpTxn (TxCreateOrder _ _ _ _ _) => False
  | _ => True
  end.

(** The states the service reaches from the empty database.  The
    handlers run interleaved, so a state is reached by whole handler calls
    and by single transactions; [create_order] is issued by [cz] alone,
    for its caller and after its [ensure_user], and no row of [users] is
    ever removed.  The gateway log, the clock and the uuid source advance
    freely. *)
Inductive reachable : World -> Prop :=
  | reach_init : reachable init_world
  | reach_op (o : op) (w : World) :
      by_handlers o -> reachable w -> reachable (exec_op o w)
  | reach_create (unique_id : string) (uid : Z) (amount : Decimal)
      (order_id pay_url : string) (w : World) :
      reachable w -> is_Some (users w !! uid) ->
      reachable (snd (create_order unique_id uid amount order_id pay_url w))
  | reach_env (w w' : World) :
      reachable w -> users w' = users w -> orders w' = orders w -> reachable w'.

(** *** The paid commands and the buttons *)

(** The commands [paid_command] is registered for: [cmd_ddz], [cmd_dt],
    [cmd_zdz2] and [cmd_jdz]. *)
Inductive paid_cmd : Type := CmdDdz | CmdDt | CmdZdz2 | CmdJdz.

(** The table [COST] at the four keys. *)
Definition COST (cmd : paid_cmd) : Decimal :=
  match cmd with
  | CmdDdz => mkDecimal 15 (-1)
  | CmdDt => mkDecimal 18 (-1)
  | CmdZdz2 => mkDecimal 45 (-1)
  | CmdJdz => mkDecimal 18 (-1)
  end.

Definition INSUFFICIENT_TEXT : string := "积分不足❌️,请输入/cz [金额]进行补充!".
Definition MAINTAIN_TEXT : string :=
  "当前接口可能正在维护,请五分钟后再试,如任然不行,不要咨询客服,等待即可".
Definition MSG_BAD_FORMAT : string := "格式错误❌️".

(** [parse_name_id_args(text)] on [parts = text.strip().split()]. *)
Definition parse_name_id_args (parts : list string) : bool :=
  Nat.eqb (length parts) 3.

(** [paid_command]; [parts] are the words of the message text. *)
Definition paid_command (user : TgUser) (parts : list string) (cmd : paid_cmd) : M Reply :=
  let* _ := ensure_user user in
  if negb (parse_name_id_args parts) then ret (reply_text MSG_BAD_FORMAT)
  else
    let need := COST cmd in
    let* ok := deduct_points_if_enough (tg_id user) need in
    if negb ok then ret (reply_text INSUFFICIENT_TEXT)
    else ret (reply_text MAINTAIN_TEXT).

(** [data.split(":", 1)[1]]: what follows the first colon; there is no
    such element when [data] has no colon. *)
Fixpoint after_first_colon (data : string) : option string :=
  match data with
  | EmptyString => None
  | String c rest =>
      if Ascii.eqb c ":" then Some rest else after_first_colon rest
  end.

(** [button_click] with [data = q.data] and [from_id = q.from_user.id];
    [None] when no branch replies. *)
Definition button_click (from_id : Z) (data : string) : M (outcome (option Reply)) :=
  if String.eqb data "btn_ddz"
  then ret (Return (Some (reply_text "使用指令:规范格式 /ddz [姓名] [身份证]")))
  else if String.eqb data "btn_dt"
  then ret (Return (Some (reply_text "请发送 /dt [姓名] [身份证]")))
  else if String.eqb data "btn_zdz"
  then ret (Return (Some (reply_text "正在维护中...稍安勿躁")))
  else if String.eqb data "btn_zdz2"
  then ret (Return (Some (reply_text "请使用指令/zdz_2 [姓名] [身份证]")))
  else if String.eqb data "btn_jdz"
  then ret (Return (Some (reply_text "请使用指令 /jdz [姓名] [身份证]")))
  else if String.prefix "checkpay:" data
  then
    match after_first_colon data with
    | None => ret (Raise "IndexError")
    | Some unique_id =>
        let* r := handle_check_payment from_id unique_id in
        ret (Return (Some r))
    end
  else ret (Return None).

(** How one step changes [orders], with the rows named: nothing, a new
    pending row under a free key, or the credit write on a row that was
    not credited. *)
Definition orders_change (os os' : gmap string OrderRow) : Prop :=
  os' = os
  \/ (exists unique_id uid amount oid url now,
        os !! unique_id = None
        /\ os' = <[unique_id := pending_order uid amount oid url now]> os)
  \/ (exists unique_id now row,
        os !! unique_id = Some row /\ credited row <> 1
        /\ os' = <[unique_id := set_paid_credited now row]> os).

(** The fields of an order fixed at its creation. *)
Definition same_creation (a b : OrderRow) : Prop :=
  user_id a = user_id b /\ amount a = amount b /\ coin a = coin b
  /\ order_id a = order_id b /\ pay_url a = pay_url b
  /\ created_at a = created_at b.

(** An order is pending with no payment time, or paid and credited with
    one. *)
Definition flags_consistent (row : OrderRow) : Prop :=
  (status row = 0 /\ credited row = 0 /\ paid_at row = None)
  \/ (status row = 1 /\ credited row = 1 /\ is_Some (paid_at row)).

(** The six places [_extract_pay_result] looks for the checkout URL. *)
Definition url_candidates (r : dict) : list pyval :=
  [ dict_get (data_of r) "pay_url"; dict_get (data_of r) "payUrl";
    dict_get (data_of r) "url"; dict_get (data_of r) "link";
    dict_get r "pay_url"; dict_get r "payUrl" ].

(** A payload value on which the two filters of [_sign_data] agree: a
    string other than ["0"]. *)
Definition text_value (v : pyval) : Prop :=
  exists s, v = PStr s /\ s <> "0".

(** The text [_is_auth_failed] searches, [msg] followed by [message]. *)
Definition auth_text (r : dict) : string :=
  py_str (dict_get_default r "msg" (PStr ""))
  ++ py_str (dict_get_default r "message" (PStr "")).

(** ** Properties *)

(** *** Decimal arithmetic *)

Lemma round_half_even_nonneg (c k : Z) : 0 <= c -> 0 <= Dec.round_half_even c k.
Proof.
  intros Hc. unfold Dec.round_half_even.
  assert (Hq : 0 <= c / 10 ^ k).
  { destruct (Z_lt_le_dec k 0) as [Hk | Hk].
    - rewrite Z.pow_neg_r by lia. rewrite Z.div_0_r. lia.
    - apply Z.div_pos; [lia | apply Z.pow_pos_nonneg; lia]. }
  destruct ((2 * (c mod 10 ^ k) >? 10 ^ k)
            || (2 * (c mod 10 ^ k) =? 10 ^ k) && Z.odd (c / 10 ^ k)); lia.
Qed.

Lemma fix_nonneg (d : Decimal) : Dec.nonneg d -> Dec.nonneg (Dec.fix_ d).
Proof.
  unfold Dec.nonneg, Dec.fix_. intros Hd.
  destruct (Dec.ndigits (coef d) <=? Dec.prec); [exact Hd |].
  set (q := Dec.round_half_even (Z.abs (coef d)) (Dec.ndigits (coef d) - Dec.prec)).
  assert (Hq : 0 <= q) by (apply round_half_even_nonneg; lia).
  assert (Hs : 0 <= Z.sgn (coef d)) by (apply Z.sgn_nonneg; exact Hd).
  destruct (Dec.ndigits q >? Dec.prec); simpl.
  - apply Z.mul_nonneg_nonneg; [exact Hs |]. apply Z.div_pos; lia.
  - apply Z.mul_nonneg_nonneg; assumption.
Qed.

Lemma pow10_nonneg (e : Z) : 0 <= 10 ^ e.
Proof.
  destruct (Z_lt_le_dec e 0) as [He | He].
  - rewrite Z.pow_neg_r by lia. lia.
  - apply Z.pow_nonneg. lia.
Qed.

Lemma add_nonneg (a b : Decimal) :
  Dec.nonneg a -> Dec.nonneg b -> Dec.nonneg (Dec.add a b).
Proof.
  intros Ha Hb. apply fix_nonneg. unfold Dec.nonneg, Dec.exact_add, Dec.align in *.
  simpl. apply Z.add_nonneg_nonneg; apply Z.mul_nonneg_nonneg;
    auto using pow10_nonneg.
Qed.

(** A difference that [deduct_points_if_enough] writes is not negative. *)
Lemma sub_nonneg (a b : Decimal) : Dec.lt a b = false -> Dec.nonneg (Dec.sub a b).
Proof.
  intros Hlt. apply fix_nonneg. revert Hlt.
  unfold Dec.nonneg, Dec.lt, Dec.cmp, Dec.exact_sub, Dec.align. simpl.
  destruct (Z.compare_spec (coef a * 10 ^ (dexp a - Z.min (dexp a) (dexp b)))
                           (coef b * 10 ^ (dexp b - Z.min (dexp a) (dexp b))));
    intros; try discriminate; lia.
Qed.

(** Within the precision of the context a sum is exact. *)
Lemma add_exact (a b : Decimal) :
  Dec.ndigits (coef (Dec.exact_add a b)) <= Dec.prec ->
  Dec.add a b = Dec.exact_add a b.
Proof.
  intros H. unfold Dec.add, Dec.fix_.
  apply Z.leb_le in H. rewrite H. reflexivity.
Qed.

(** *** The stores *)

Lemma update_points_lookup (uid uid' : Z) (p : Decimal) (us : gmap Z UserRow) row :
  update_points uid p us !! uid' = Some row ->
  exists row0, us !! uid' = Some row0
               /\ points row = (if decide (uid = uid') then p else points row0).
Proof.
  unfold update_points. rewrite lookup_alter.
  destruct (decide (uid = uid')) as [-> | Hne].
  - destruct (us !! uid') as [row0 |] eqn:E; simpl; [| discriminate].
    intros [= <-]. exists row0. split; reflexivity.
  - intros H. exists row. split; [exact H | reflexivity].
Qed.

Lemma ensure_user_lookup (user : TgUser) (w : World) (uid : Z) row :
  users (snd (ensure_user user w)) !! uid = Some row ->
  points row = Dec.zero \/ exists row0, users w !! uid = Some row0 /\ points row = points row0.
Proof.
  unfold ensure_user, bind, time_now. simpl. rewrite lookup_alter.
  destruct (decide (tg_id user = uid)) as [<- | Hne].
  - destruct (users w !! tg_id user) as [row0 |] eqn:E.
    + rewrite E. simpl. intros [= <-]. right. exists row0. split; reflexivity.
    + rewrite lookup_insert_eq. simpl. intros [= <-]. left. reflexivity.
  - destruct (users w !! tg_id user) as [row0 |] eqn:E.
    + intros H. right. exists row. split; [exact H | reflexivity].
    + rewrite lookup_insert_ne by exact Hne. intros H. right. exists row.
      split; [exact H | reflexivity].
Qed.

Lemma ensure_user_orders (user : TgUser) (w : World) :
  orders (snd (ensure_user user w)) = orders w
  /\ sent (snd (ensure_user user w)) = sent w.
Proof. split; reflexivity. Qed.

(** The owner of a row keeps a row under [ensure_user]. *)
Lemma ensure_user_registers (user : TgUser) (w : World) :
  is_Some (users (snd (ensure_user user w)) !! tg_id user).
Proof.
  unfold ensure_user, bind, time_now. simpl. rewrite lookup_alter.
  rewrite decide_True by reflexivity.
  destruct (users w !! tg_id user) as [row0 |] eqn:E.
  - rewrite E. simpl. eauto.
  - apply fmap_is_Some. exists {| username :=
                       match tg_username user with
                       | Some n => n
                       | None => ""
                       end;
                     full_name := tg_full_name user;
                     points := Dec.zero;
                     user_created_at := clock env (ticks w) |}.
    apply lookup_insert_eq.
Qed.

Lemma mark_result (unique_id : string) (w : World) :
  mark_order_paid_and_credit unique_id w =
  match orders w !! unique_id with
  | None => ((false, MSG_ORDER_MISSING), w)
  | Some row =>
      if credited row =? 1 then ((true, MSG_ALREADY_CREDITED), w)
      else
        ((true, msg_credited (amount row)),
         {| users :=
              update_points (user_id row)
                (Dec.add (match users w !! user_id row with
                          | Some u => points u
                          | None => Dec.zero
                          end) (amount row)) (users w);
            orders := alter (set_paid_credited (clock env (ticks w))) unique_id (orders w);
            sent := sent w; ticks := S (ticks w); draws := draws w |})
  end.
Proof.
  unfold mark_order_paid_and_credit.
  destruct (orders w !! unique_id) as [row |]; [| reflexivity].
  destruct (credited row =? 1); reflexivity.
Qed.

Lemma exec_txn_nonneg (t : txn) (w : World) :
  txn_amount_ok t -> balances_nonneg w -> amounts_nonneg w ->
  balances_nonneg (exec_txn t w) /\ amounts_nonneg (exec_txn t w).
Proof.
  intros Hok Hb Ha. destruct t as [user | uid amt | unique_id uid amt oid url | unique_id];
    simpl.
  - split; [| exact Ha].
    intros uid row Hrow. apply ensure_user_lookup in Hrow as [-> | (row0 & H0 & ->)].
    + unfold Dec.nonneg. simpl. lia.
    + eapply Hb; eauto.
  - unfold deduct_points_if_enough.
    destruct (Dec.lt _ amt) eqn:Hlt; simpl; [split; assumption |].
    split; [| exact Ha].
    intros uid' row Hrow. simpl in Hrow.
    apply update_points_lookup in Hrow as (row0 & H0 & ->).
    destruct (decide (uid = uid')); [apply sub_nonneg; exact Hlt | eapply Hb; eauto].
  - unfold create_order, bind, time_now. simpl.
    destruct (orders w !! unique_id) as [row |] eqn:E; simpl; [split; assumption |].
    split; [exact Hb |].
    intros k row. simpl. destruct (decide (unique_id = k)) as [<- | Hne].
    + rewrite lookup_insert_eq. intros [= <-]. exact Hok.
    + rewrite lookup_insert_ne by exact Hne. apply Ha.
  - rewrite mark_result.
    destruct (orders w !! unique_id) as [row |] eqn:E; simpl; [| split; assumption].
    destruct (credited row =? 1); simpl; [split; assumption |].
    split.
    + intros uid' r Hr. simpl in Hr.
      apply update_points_lookup in Hr as (row0 & H0 & ->).
      destruct (decide (user_id row = uid')) as [<- | Hne]; [| eapply Hb; eauto].
      apply add_nonneg; [| eapply Ha; eauto].
      rewrite H0. eapply Hb; eauto.
    + intros k r. simpl. rewrite lookup_alter.
      destruct (decide (unique_id = k)) as [<- | Hne]; [| apply Ha].
      rewrite E. simpl. intros [= <-]. simpl. eapply Ha; eauto.
Qed.

Lemma exec_txns_nonneg (ts : list txn) (w : World) :
  Forall txn_amount_ok ts -> balances_nonneg w -> amounts_nonneg w ->
  balances_nonneg (exec_txns ts w).
Proof.
  revert w. induction ts as [| t ts IH]; intros w Hts Hb Ha; [exact Hb |].
  inversion Hts as [| ? ? Ht Hrest]; subst.
  destruct (exec_txn_nonneg t w Ht Hb Ha) as [Hb' Ha'].
  simpl. apply IH; assumption.
Qed.

(** C2. [deduct_points_if_enough], one atomic unit, returns [False] and
    leaves the store as it is when the balance is below the amount;
    otherwise it writes [current - amount], which is not negative, and
    returns [True].  Hence along any sequence of transactions, however the
    concurrent handlers were serialised, no balance becomes negative. *)
Theorem deduct_points_if_enough_atomic (w : World) (uid : Z) (amount : Decimal) :
  let current := fst (get_points uid w) in
  (Dec.lt current amount = true ->
     deduct_points_if_enough uid amount w = (false, w))
  /\ (Dec.lt current amount = false ->
        deduct_points_if_enough uid amount w
        = (true, set_users (update_points uid (Dec.sub current amount) (users w)) w)
        /\ (forall row, users w !! uid = Some row ->
              fst (get_points uid (snd (deduct_points_if_enough uid amount w)))
              = Dec.sub current amount)
        /\ Dec.nonneg (Dec.sub current amount))
  /\ (forall ts : list txn,
        balances_nonneg w -> amounts_nonneg w -> Forall txn_amount_ok ts ->
        balances_nonneg (exec_txns ts w)).
Proof.
  assert (Hcur : fst (get_points uid w)
                 = match users w !! uid with Some row => points row | None => Dec.zero end).
  { unfold get_points. destruct (users w !! uid); reflexivity. }
  cbv zeta. rewrite Hcur. split; [| split].
  - intros Hlt. unfold deduct_points_if_enough. rewrite Hlt. reflexivity.
  - intros Hlt. unfold deduct_points_if_enough. rewrite Hlt. split; [reflexivity |].
    split; [| apply sub_nonneg; exact Hlt].
    intros row Hrow. unfold get_points. simpl.
    unfold update_points. rewrite lookup_alter, decide_True by reflexivity.
    rewrite Hrow. reflexivity.
  - intros ts Hb Ha Hts. apply exec_txns_nonneg; assumption.
Qed.

(** *** The gateway client *)

Lemma push_sent_nil (w : World) : push_sent [] w = w.
Proof. destruct w. unfold push_sent. simpl. rewrite app_nil_r. reflexivity. Qed.

Lemma push_sent_cons (req : Request) (reqs : list Request) (w : World) :
  push_sent reqs (push_sent [req] w) = push_sent (req :: reqs) w.
Proof. unfold push_sent. simpl. rewrite <- app_assoc. reflexivity. Qed.

Lemma post_loop_spec (url : string) (data : dict) (sts : list strategy) :
  forall (last_resp : pyval) (last_err : option string) (w : World),
  post_loop url data sts last_resp last_err w =
  match first_accepted (answers (length (sent w)) (requests url data sts)) with
  | Some (i, r) => (Return r, push_sent (firstn (S i) (requests url data sts)) w)
  | None =>
      (final_outcome
         (match last_response (answers (length (sent w)) (requests url data sts)) with
          | Some r => r
          | None => last_resp
          end)
         (last_error (answers (length (sent w)) (requests url data sts)) last_err),
       push_sent (requests url data sts) w)
  end.
Proof.
  induction sts as [| st sts IH]; intros last_resp last_err w.
  - simpl. rewrite push_sent_nil. destruct last_resp; reflexivity.
  - simpl. unfold bind, http_post.
    set (req := {| req_url := url; req_body := _sign_data data st |}).
    assert (Hlen : length (sent (push_sent [req] w)) = S (length (sent w))).
    { simpl. rewrite length_app. simpl. lia. }
    fold (push_sent [req] w).
    destruct (gateway env (length (sent w)) req) as [e | resp].
    + rewrite IH, Hlen.
      destruct (first_accepted (answers (S (length (sent w))) (requests url data sts)))
        as [[i r] |]; rewrite push_sent_cons; reflexivity.
    + destruct (_is_auth_failed resp) eqn:Hauth.
      * rewrite IH, Hlen.
        destruct (first_accepted (answers (S (length (sent w))) (requests url data sts)))
          as [[i r] |]; rewrite push_sent_cons; [reflexivity |].
        destruct (last_response (answers (S (length (sent w))) (requests url data sts)));
          reflexivity.
      * reflexivity.
Qed.

Lemma first_accepted_none (l : list attempt) :
  first_accepted l = None <-> forallb refused l = true.
Proof.
  induction l as [| a l IH]; simpl; [tauto |].
  destruct a as [e | resp]; simpl.
  - destruct (first_accepted l) as [[i r] |]; rewrite <- IH; split;
      intros; congruence.
  - destruct (_is_auth_failed resp); simpl.
    + destruct (first_accepted l) as [[i r] |]; rewrite <- IH; split;
        intros; congruence.
    + split; intros; discriminate.
Qed.

Lemma first_accepted_bound (l : list attempt) (i : nat) (r : pyval) :
  first_accepted l = Some (i, r) -> (i < length l)%nat /\ forallb is_raised l = false.
Proof.
  revert i. induction l as [| a l IH]; simpl; intros i; [discriminate |].
  destruct a as [e | resp]; simpl.
  - destruct (first_accepted l) as [[j r'] |]; [| discriminate].
    intros [= <- <-]. destruct (IH j eq_refl). split; [lia | assumption].
  - intros H. split; [| reflexivity].
    destruct (_is_auth_failed resp).
    + destruct (first_accepted l) as [[j r'] |]; [| discriminate].
      injection H as <- <-. destruct (IH j eq_refl). lia.
    + injection H as <- <-. lia.
Qed.

Lemma last_response_none (l : list attempt) :
  last_response l = None <-> forallb is_raised l = true.
Proof.
  induction l as [| a l IH]; simpl; [tauto |].
  destruct a as [e | resp]; simpl; [exact IH |].
  destruct (last_response l); split; intros; discriminate.
Qed.

(** A response kept as [last_resp] is a refused one, hence a [dict]. *)
Lemma last_response_refused (l : list attempt) (r : pyval) :
  forallb refused l = true -> last_response l = Some r -> _is_auth_failed r = true.
Proof.
  induction l as [| a l IH]; simpl; [discriminate |].
  destruct a as [e | resp]; simpl.
  - exact IH.
  - intros [Hresp Hl]%andb_prop.
    destruct (last_response l) as [r' |].
    + intros [= <-]. apply IH; [exact Hl | reflexivity].
    + intros [= <-]. exact Hresp.
Qed.

Lemma auth_failed_not_none (r : pyval) : _is_auth_failed r = true -> r <> PNone.
Proof. destruct r; simpl; congruence. Qed.

Lemma answers_length (n : nat) (reqs : list Request) :
  length (answers n reqs) = length reqs.
Proof. revert n. induction reqs; simpl; intros; [reflexivity | f_equal; auto]. Qed.

(** C6. [_post] goes through the same four signing strategies in the same
    order and sends at most four requests.  When every answer is an
    exception or an authentication failure it has sent all four, and it
    returns the last response received if there was one and raises
    otherwise; it raises only when all four exchanges raised.  The first
    response that is no authentication failure is returned at once. *)
Theorem post_tries_four_strategies (endpoint : string) (data : dict) (w : World) :
  let reqs := requests (client_base ++ endpoint) data strategies in
  let outs := answers (length (sent w)) reqs in
  let res := fst (_post endpoint data w) in
  let w' := snd (_post endpoint data w) in
  strategies = [ {| keep_zero := false; use_urldecode_plus := true |};
                 {| keep_zero := true;  use_urldecode_plus := true |};
                 {| keep_zero := false; use_urldecode_plus := false |};
                 {| keep_zero := true;  use_urldecode_plus := false |} ]
  /\ length reqs = 4%nat
  /\ (exists n, (n <= 4)%nat /\ w' = push_sent (firstn n reqs) w)
  /\ (forallb refused outs = true ->
        w' = push_sent reqs w
        /\ match last_response outs with
           | Some r => res = Return r
           | None => exists e, res = Raise e
           end)
  /\ ((exists e, res = Raise e) <-> forallb is_raised outs = true)
  /\ (forall i r, first_accepted outs = Some (i, r) ->
        res = Return r /\ w' = push_sent (firstn (S i) reqs) w).
Proof.
  cbv zeta. unfold _post. rewrite post_loop_spec.
  set (reqs := requests (client_base ++ endpoint) data strategies).
  set (outs := answers (length (sent w)) reqs).
  assert (Hlen : length reqs = 4%nat) by reflexivity.
  split; [reflexivity |]. split; [exact Hlen |].
  destruct (first_accepted outs) as [[i r] |] eqn:Hacc.
  - destruct (first_accepted_bound _ _ _ Hacc) as [Hi Hnr].
    unfold outs in Hi. rewrite answers_length, Hlen in Hi.
    split; [exists (S i); split; [lia | reflexivity] |].
    split.
    { intros Href. apply first_accepted_none in Href. congruence. }
    split.
    { cbn [fst snd]. split; [intros [e He]; discriminate | intros Hr; congruence]. }
    intros i' r' [= <- <-]. split; reflexivity.
  - assert (Href : forallb refused outs = true) by (apply first_accepted_none; exact Hacc).
    cbn [fst snd].
    split.
    { exists 4%nat. split; [lia |]. rewrite <- Hlen, firstn_all. reflexivity. }
    split.
    { intros _. split; [reflexivity |].
      destruct (last_response outs) as [r |] eqn:Hlast.
      - pose proof (auth_failed_not_none r (last_response_refused _ _ Href Hlast)) as Hr.
        destruct r; simpl; congruence.
      - simpl. eauto. }
    split; [| intros i r; discriminate].
    destruct (last_response outs) as [r |] eqn:Hlast.
    + pose proof (auth_failed_not_none r (last_response_refused _ _ Href Hlast)) as Hr.
      split.
      * intros [e He]. destruct r; simpl in He; congruence.
      * intros Hall. apply last_response_none in Hall. congruence.
    + split; [intros _; apply last_response_none; exact Hlast |].
      intros _. simpl. eauto.
Qed.

(** *** Frames *)

Lemma post_frame (endpoint : string) (data : dict) (w : World) :
  exists n, (1 <= n <= 4)%nat
    /\ snd (_post endpoint data w)
       = push_sent (firstn n (requests (client_base ++ endpoint) data strategies)) w.
Proof.
  unfold _post. rewrite post_loop_spec.
  set (reqs := requests (client_base ++ endpoint) data strategies).
  destruct (first_accepted (answers (length (sent w)) reqs)) as [[i r] |] eqn:Hacc.
  - apply first_accepted_bound in Hacc as [Hi _].
    rewrite answers_length in Hi. change (length reqs) with 4%nat in Hi.
    exists (S i). split; [lia | reflexivity].
  - exists 4%nat. split; [lia | reflexivity].
Qed.

Lemma check_deposit_frame (unique_id : string) (w : World) :
  exists reqs, snd (check_deposit unique_id w) = push_sent reqs w.
Proof.
  unfold check_deposit.
  destruct (post_frame "checkDeposit" [("unique_id", PStr unique_id)] w) as (n & _ & H).
  eauto.
Qed.

Lemma pay_link_eq (unique_id : string) (amount : Decimal) (name : string) :
  pay_link unique_id amount name = _post "payLink" (pay_link_data unique_id amount name).
Proof. reflexivity. Qed.

(** *** Ownership *)

(** C8. A call of [handle_check_payment] by anyone but the order's owner
    replies that the order is not theirs and changes nothing: the
    tables, the log of gateway requests and the clock are as before. *)
Theorem check_payment_ownership (w : World) (from_id : Z) (unique_id : string)
    (row : OrderRow) :
  orders w !! unique_id = Some row ->
  from_id <> user_id row ->
  handle_check_payment from_id unique_id w = (reply_text MSG_NOT_YOURS, w).
Proof.
  intros Hrow Hne. unfold handle_check_payment, bind, get_order. rewrite Hrow.
  destruct (Z.eqb_spec from_id (user_id row)) as [Heq | _]; [contradiction |].
  reflexivity.
Qed.

(** *** The credit transition *)

Lemma update_points_absent (uid : Z) (p : Decimal) (us : gmap Z UserRow) :
  us !! uid = None -> update_points uid p us = us.
Proof.
  intros Hnone. apply map_eq. intros k. unfold update_points.
  rewrite lookup_alter. destruct (decide (uid = k)) as [<- | _]; [| reflexivity].
  rewrite Hnone. reflexivity.
Qed.

(** C10. For an order whose [user_id] has no row in [users],
    [mark_order_paid_and_credit] still marks the order paid and credited
    and reports success, while the balance write matches no row: [users]
    is as before, and every later call finds the order credited and writes
    nothing. *)
Theorem credit_without_user_row (w : World) (unique_id : string) (row : OrderRow) :
  orders w !! unique_id = Some row ->
  credited row <> 1 ->
  users w !! user_id row = None ->
  let w' := snd (mark_order_paid_and_credit unique_id w) in
  fst (mark_order_paid_and_credit unique_id w) = (true, msg_credited (amount row))
  /\ orders w' !! unique_id = Some (set_paid_credited (clock env (ticks w)) row)
  /\ users w' = users w
  /\ (forall uid, fst (get_points uid w') = fst (get_points uid w))
  /\ mark_order_paid_and_credit unique_id w' = ((true, MSG_ALREADY_CREDITED), w').
Proof.
  intros Hrow Hcred Huser. cbv zeta.
  assert (Hstep : mark_order_paid_and_credit unique_id w =
    ((true, msg_credited (amount row)),
     {| users := users w;
        orders := alter (set_paid_credited (clock env (ticks w))) unique_id (orders w);
        sent := sent w; ticks := S (ticks w); draws := draws w |})).
  { rewrite mark_result, Hrow.
    destruct (Z.eqb_spec (credited row) 1) as [Heq | _]; [contradiction |].
    rewrite Huser. rewrite update_points_absent by exact Huser. reflexivity. }
  rewrite Hstep. cbn [fst snd users orders].
  assert (Hnew : alter (set_paid_credited (clock env (ticks w))) unique_id (orders w)
                 !! unique_id = Some (set_paid_credited (clock env (ticks w)) row)).
  { rewrite lookup_alter, decide_True by reflexivity. rewrite Hrow. reflexivity. }
  split; [reflexivity |]. split; [exact Hnew |]. split; [reflexivity |].
  split; [intros uid; unfold get_points; cbn [users];
          destruct (users w !! uid); reflexivity |].
  rewrite mark_result. cbn [orders]. rewrite Hnew. reflexivity.
Qed.

(** *** Order creation *)

Lemma cz_create_unfold (user : TgUser) (amount : Decimal) (w : World) :
  cz_create user amount w =
  let '((unique_id, r), w2) := cz_link user amount w in
  match r with
  | Raise _ => (Return (reply_text MSG_CREATE_RAISED), w2)
  | Return resp =>
      let '(success, oid, url) := _extract_pay_result resp in
      if negb success then (Return (reply_text (msg_create_failed resp)), w2)
      else
        match create_order unique_id (tg_id user) amount (str_or oid "") url w2 with
        | (Raise e, w3) => (Raise e, w3)
        | (Return _, w3) => (Return (reply_order_created unique_id oid url amount), w3)
        end
  end.
Proof.
  unfold cz_create, cz_link, bind, ret.
  destruct (time_now w) as [now w0]. destruct (uuid4_hex6 w0) as [hex w1].
  destruct (pay_link _ amount _ w1) as [[resp | e] w2]; [| reflexivity].
  destruct (_extract_pay_result resp) as [[success oid] url].
  destruct success; simpl; [| reflexivity].
  destruct (create_order _ (tg_id user) amount (str_or oid "") url w2) as [[[] | e] w3];
    reflexivity.
Qed.

(** [cz_link] only reads the clock, draws a uuid and talks to the gateway:
    it sends between one and four [payLink] requests. *)
Lemma cz_link_frame (user : TgUser) (amount : Decimal) (w : World) :
  let w2 := snd (cz_link user amount w) in
  users w2 = users w /\ orders w2 = orders w
  /\ exists n, (1 <= n <= 4)%nat
       /\ sent w2 =
          (sent w
           ++ firstn n (requests (client_base ++ "payLink")
                          (pay_link_data (fst (fst (cz_link user amount w))) amount
                             ("TG充值_" ++ PyStr.of_Z (tg_id user)))
                          strategies))%list.
Proof.
  unfold cz_link, bind, ret, time_now, uuid4_hex6.
  cbn [users orders sent ticks draws]. rewrite pay_link_eq.
  match goal with
  | |- context [_post ?e ?d ?w1] =>
      destruct (post_frame e d w1) as (n & Hn & Hw);
      destruct (_post e d w1) as [r w2]
  end.
  cbn [fst snd] in *. subst w2. cbn [push_sent users orders sent].
  split; [reflexivity |]. split; [reflexivity |]. exists n. split; [exact Hn | reflexivity].
Qed.

Lemma create_order_result (unique_id : string) (uid : Z) (amount : Decimal)
    (oid url : string) (w : World) :
  create_order unique_id uid amount oid url w =
  match orders w !! unique_id with
  | Some _ =>
      (Raise "UNIQUE constraint failed: orders.unique_id",
       {| users := users w; orders := orders w; sent := sent w;
          ticks := S (ticks w); draws := draws w |})
  | None =>
      (Return tt,
       {| users := users w;
          orders := <[unique_id := pending_order uid amount oid url (clock env (ticks w))]>
                      (orders w);
          sent := sent w; ticks := S (ticks w); draws := draws w |})
  end.
Proof.
  unfold create_order, bind, time_now. cbn [orders].
  destruct (orders w !! unique_id); reflexivity.
Qed.

(** *** The invariant of the [orders] table *)

Lemma orders_step_refl (os : gmap string OrderRow) : orders_step os os.
Proof. left. reflexivity. Qed.

Lemma orders_step_invariant (w w' : World) :
  orders_step (orders w) (orders w') ->
  credited_implies_paid w -> credited_implies_paid w'.
Proof.
  intros [Heq | [(k & r & Hs & Hc & Heq) | (k & now & Heq)]] Hinv unique_id row;
    rewrite Heq.
  - apply Hinv.
  - destruct (decide (k = unique_id)) as [<- | Hne].
    + rewrite lookup_insert_eq. intros [= <-]. lia.
    + rewrite lookup_insert_ne by exact Hne. apply Hinv.
  - rewrite lookup_alter. destruct (decide (k = unique_id)) as [<- | Hne].
    + destruct (orders w !! k) as [r |]; simpl; [| discriminate].
      intros [= <-]. reflexivity.
    + apply Hinv.
Qed.

Lemma mark_orders_step (unique_id : string) (w : World) :
  orders_step (orders w) (orders (snd (mark_order_paid_and_credit unique_id w))).
Proof.
  rewrite mark_result. destruct (orders w !! unique_id) as [row |]; [| left; reflexivity].
  destruct (credited row =? 1); [left; reflexivity |].
  right. right. eauto.
Qed.

Lemma create_order_orders_step (unique_id : string) (uid : Z) (amount : Decimal)
    (oid url : string) (w : World) :
  orders_step (orders w) (orders (snd (create_order unique_id uid amount oid url w))).
Proof.
  rewrite create_order_result.
  destruct (orders w !! unique_id); [left; reflexivity |].
  right. left. do 2 eexists. split; [| split; [| reflexivity]]; reflexivity.
Qed.

Lemma exec_txn_orders_step (t : txn) (w : World) :
  orders_step (orders w) (orders (exec_txn t w)).
Proof.
  destruct t; simpl.
  - left. reflexivity.
  - unfold deduct_points_if_enough. destruct (Dec.lt _ _); left; reflexivity.
  - apply create_order_orders_step.
  - apply mark_orders_step.
Qed.

Lemma cz_create_orders_step (user : TgUser) (amount : Decimal) (w : World) :
  orders_step (orders w) (orders (snd (cz_create user amount w))).
Proof.
  rewrite cz_create_unfold.
  destruct (cz_link_frame user amount w) as (_ & Ho & _).
  destruct (cz_link user amount w) as [[unique_id r] w2]. cbn [snd] in Ho.
  rewrite <- Ho.
  destruct r as [resp | e]; [| left; reflexivity].
  destruct (_extract_pay_result resp) as [[success oid] url].
  destruct success; simpl; [| left; reflexivity].
  pose proof (create_order_orders_step unique_id (tg_id user) amount (str_or oid "") url w2)
    as Hstep.
  destruct (create_order unique_id (tg_id user) amount (str_or oid "") url w2)
    as [[[] | e] w3]; exact Hstep.
Qed.

Lemma cz_orders_step (user : TgUser) (args : list DecimalArg) (w : World) :
  orders_step (orders w) (orders (snd (cz user args w))).
Proof.
  unfold cz, bind. destruct (ensure_user user w) as [[] w1] eqn:Heu.
  assert (Ho : orders w1 = orders w).
  { change w1 with (snd (tt, w1)). rewrite <- Heu. reflexivity. }
  rewrite <- Ho.
  destruct args as [| arg [| arg' rest]]; try (left; reflexivity).
  destruct arg as [| | negative | amount]; try (left; reflexivity).
  - destruct negative; left; reflexivity.
  - destruct (Dec.lt amount (Dec.of_Z 3)); [left; reflexivity |].
    destruct (Dec.gt amount (Dec.of_Z 10000)); [left; reflexivity |].
    apply cz_create_orders_step.
Qed.

Lemma handle_check_payment_orders_step (from_id : Z) (unique_id : string) (w : World) :
  orders_step (orders w) (orders (snd (handle_check_payment from_id unique_id w))).
Proof.
  unfold handle_check_payment, bind, get_order.
  destruct (orders w !! unique_id) as [row |]; [| left; reflexivity].
  destruct (negb (from_id =? user_id row)); [left; reflexivity |].
  destruct (credited row =? 1); [left; reflexivity |].
  destruct (check_deposit_frame unique_id w) as (reqs & Hw).
  destruct (check_deposit unique_id w) as [[resp | e] w1]; cbn [snd] in Hw; subst w1;
    [| left; reflexivity].
  destruct (_extract_paid_status resp); [| left; reflexivity].
  pose proof (mark_orders_step unique_id (push_sent reqs w)) as Hstep.
  destruct (mark_order_paid_and_credit unique_id (push_sent reqs w)) as [[ok msg] w2].
  exact Hstep.
Qed.

Lemma exec_op_orders_step (o : op) (w : World) :
  orders_step (orders w) (orders (exec_op o w)).
Proof.
  destruct o; simpl.
  - apply exec_txn_orders_step.
  - apply cz_orders_step.
  - apply handle_check_payment_orders_step.
Qed.

Lemma exec_ops_invariant (os : list op) (w : World) :
  credited_implies_paid w -> credited_implies_paid (exec_ops os w).
Proof.
  revert w. induction os as [| o os IH]; intros w Hinv; [exact Hinv |].
  simpl. apply IH. eapply orders_step_invariant; [apply exec_op_orders_step | exact Hinv].
Qed.

(** C9. In every state the service can reach from the empty database, by
    any sequence of its transactions and handler calls, an order with
    [credited = 1] has [status = 1]: each step leaves [orders] as it is,
    inserts a row with [status = 0] and [credited = 0], or sets [status]
    and [credited] to 1 in the same write. *)
Theorem credited_orders_are_paid (os : list op) (unique_id : string) (row : OrderRow) :
  orders (exec_ops os init_world) !! unique_id = Some row ->
  credited row = 1 ->
  status row = 1
  /\ (forall (o : op) (w : World), orders_step (orders w) (orders (exec_op o w))).
Proof.
  intros Hrow Hcred. split; [| exact exec_op_orders_step].
  apply (exec_ops_invariant os init_world) with (unique_id := unique_id);
    [| exact Hrow | exact Hcred].
  intros k r Hk. simpl in Hk. rewrite lookup_empty in Hk. discriminate.
Qed.



Lemma cz_in_range (user : TgUser) (amount : Decimal) (w : World) :
  Dec.lt amount (Dec.of_Z 3) = false ->
  Dec.gt amount (Dec.of_Z 10000) = false ->
  cz user [ArgFinite amount] w = cz_create user amount (snd (ensure_user user w)).
Proof.
  intros Hlo Hhi. unfold cz, bind. destruct (ensure_user user w) as [[] w1].
  rewrite Hlo, Hhi. reflexivity.
Qed.




(** *** The signer *)

Lemma float_zero (m e : Z) : float_eq_int (FFin m e) 0 = (m =? 0).
Proof.
  unfold float_eq_int. destruct (Z.leb_spec 0 e) as [He | He]; [| reflexivity].
  assert (Hp : 0 < 2 ^ e) by (apply Z.pow_pos_nonneg; lia).
  destruct (Z.eqb_spec (m * 2 ^ e) 0) as [H0 | H0];
    destruct (Z.eqb_spec m 0) as [Hm | Hm]; try reflexivity; nia.
Qed.

(** [_php_truthy] keeps exactly what the enumerated cases do not drop. *)
Lemma php_truthy_spec (v : pyval) : _php_truthy v = negb (Spec.dropped false v).
Proof.
  unfold _php_truthy, Spec.dropped.
  destruct v as [| b | n | f | s | l | d]; cbn -[float_eq_int].
  - reflexivity.
  - destruct b; reflexivity.
  - destruct (n =? 0); reflexivity.
  - destruct f as [m e | neg |]; try reflexivity.
    rewrite float_zero. destruct (m =? 0); reflexivity.
  - destruct s as [| c s]; [reflexivity |]. cbn.
    destruct (Ascii.eqb c "0"); [destruct (String.eqb s "") |]; reflexivity.
  - destruct l; reflexivity.
  - destruct d; reflexivity.
Qed.

Lemma not_none_nor_empty_spec (v : pyval) :
  not_none_nor_empty v = negb (Spec.dropped true v).
Proof.
  unfold not_none_nor_empty, Spec.dropped.
  destruct v as [| b | n | f | s | l | d]; simpl; try reflexivity.
  destruct s; reflexivity.
Qed.

Lemma filtered_spec (data : dict) (st : strategy) :
  (if keep_zero st
   then dict_filter not_none_nor_empty (dict_set data "id" (PStr (client_id okpay)))
   else dict_filter _php_truthy (dict_set data "id" (PStr (client_id okpay))))
  = spec_kept (keep_zero st) data.
Proof.
  unfold spec_kept, dict_filter. destruct (keep_zero st); apply filter_ext; intros [k v];
    simpl; [apply not_none_nor_empty_spec | apply php_truthy_spec].
Qed.

Lemma dict_lookup_set (d : dict) (k : string) (v : pyval) :
  dict_lookup (dict_set d k v) k = Some v.
Proof.
  induction d as [| [k' v'] d IH]; simpl.
  - rewrite String.eqb_refl. reflexivity.
  - destruct (String.eqb k' k) eqn:E; simpl; rewrite E; [reflexivity | exact IH].
Qed.

(** The order of strings. *)
Lemma leb_iff (a b : string) :
  String.leb a b = true <-> a = b \/ OrderedTypeEx.String_as_OT.lt a b.
Proof.
  unfold String.leb. rewrite <- OrderedTypeEx.String_as_OT.cmp_lt.
  rewrite <- OrderedTypeEx.String_as_OT.cmp_eq.
  unfold OrderedTypeEx.String_as_OT.cmp.
  destruct (String.compare a b); split; intros H; try tauto; try discriminate.
  destruct H; discriminate.
Qed.

Lemma leb_trans (a b c : string) :
  String.leb a b = true -> String.leb b c = true -> String.leb a c = true.
Proof.
  rewrite !leb_iff. intros [-> | Hab] [-> | Hbc]; auto.
  right. eapply OrderedTypeEx.String_as_OT.lt_trans; eassumption.
Qed.

Lemma ltb_leb (a b : string) : String.ltb a b = true -> String.leb a b = true.
Proof. unfold String.ltb, String.leb. destruct (String.compare a b); congruence. Qed.

Lemma not_ltb_leb (a b : string) : String.ltb a b = false -> String.leb b a = true.
Proof.
  unfold String.ltb, String.leb. rewrite (String.compare_antisym b a).
  destruct (String.compare a b); simpl; congruence.
Qed.

#[local] Instance key_le_trans : Transitive Spec.key_le.
Proof. intros a b c. unfold Spec.key_le. apply leb_trans. Qed.

Lemma insert_by_key_perm (kv : string * pyval) (l : dict) :
  insert_by_key kv l ≡ₚ kv :: l.
Proof.
  induction l as [| kv' l IH]; simpl; [reflexivity |].
  destruct (String.ltb (fst kv') (fst kv)); [| reflexivity].
  rewrite IH. apply Permutation_swap.
Qed.

Lemma sorted_by_key_perm (l : dict) : sorted_by_key l ≡ₚ l.
Proof.
  induction l as [| kv l IH]; simpl; [reflexivity |].
  rewrite insert_by_key_perm, IH. reflexivity.
Qed.

Lemma insert_by_key_sorted (kv : string * pyval) (l : dict) :
  Sorted Spec.key_le l -> Sorted Spec.key_le (insert_by_key kv l).
Proof.
  induction l as [| kv' l IH]; simpl; intros Hs.
  - repeat constructor.
  - inversion Hs as [| ? ? Hl Hhd]; subst.
    destruct (String.ltb (fst kv') (fst kv)) eqn:E.
    + constructor; [apply IH; exact Hl |].
      destruct l as [| kv'' l]; simpl.
      * constructor. apply ltb_leb. exact E.
      * destruct (String.ltb (fst kv'') (fst kv)) eqn:E'.
        -- inversion Hhd; subst. constructor. assumption.
        -- constructor. apply ltb_leb. exact E.
    + constructor; [exact Hs |]. constructor. apply not_ltb_leb. exact E.
Qed.

Lemma sorted_by_key_sorted (l : dict) : Sorted Spec.key_le (sorted_by_key l).
Proof.
  induction l as [| kv l IH]; simpl; [constructor |].
  apply insert_by_key_sorted. exact IH.
Qed.

Lemma dict_set_in (d : dict) (k : string) (v : pyval) (k' : string) :
  k' ∈ map fst (dict_set d k v) -> k' = k \/ k' ∈ map fst d.
Proof.
  induction d as [| [k0 v0] d IH]; simpl.
  - intros Hk%list_elem_of_singleton. left. exact Hk.
  - destruct (String.eqb_spec k0 k) as [-> | Hne]; simpl.
    + intros Hk. right. exact Hk.
    + intros [-> | Hk]%elem_of_cons.
      * right. left.
      * destruct (IH Hk); [left | right; right]; assumption.
Qed.

Lemma dict_set_keys (d : dict) (k : string) (v : pyval) :
  NoDup (map fst d) -> NoDup (map fst (dict_set d k v)).
Proof.
  induction d as [| [k0 v0] d IH]; simpl; intros Hnd.
  - repeat constructor. intros H. inversion H.
  - inversion Hnd as [| ? ? Hnotin Hnd']; subst.
    destruct (String.eqb_spec k0 k) as [-> | Hne]; simpl.
    + constructor; assumption.
    + constructor; [| apply IH; exact Hnd'].
      intros Hk0. destruct (dict_set_in d k v k0 Hk0) as [-> | Hk];
        [congruence | contradiction].
Qed.

Lemma filter_keys (f : string * pyval -> bool) (d : dict) :
  NoDup (map fst d) -> NoDup (map fst (List.filter f d)).
Proof.
  induction d as [| kv d IH]; simpl; intros Hnd; [constructor |].
  inversion Hnd as [| ? ? Hnotin Hnd']; subst.
  destruct (f kv); simpl; [| apply IH; exact Hnd'].
  constructor; [| apply IH; exact Hnd'].
  intros Hin. apply Hnotin.
  apply list_elem_of_fmap in Hin as (kv' & -> & Hkv').
  apply list_elem_of_fmap. exists kv'. split; [reflexivity |].
  apply list_elem_of_In. apply list_elem_of_In in Hkv'.
  apply filter_In in Hkv'. tauto.
Qed.

Lemma spec_kept_wf (keepZero : bool) (data : dict) :
  dict_wf data -> dict_wf (spec_kept keepZero data).
Proof. intros Hwf. unfold spec_kept. apply filter_keys, dict_set_keys, Hwf. Qed.

Lemma wf_value_unique (l : dict) (k : string) (v1 v2 : pyval) :
  dict_wf l -> (k, v1) ∈ l -> (k, v2) ∈ l -> v1 = v2.
Proof.
  unfold dict_wf. induction l as [| [k0 v0] l IH]; simpl; intros Hwf H1 H2;
    [inversion H1 |].
  inversion Hwf as [| ? ? Hnotin Hnd]; subst.
  assert (Hkey : forall v, (k0, v) ∈ l -> False).
  { intros v Hv. apply Hnotin. apply list_elem_of_fmap. exists (k0, v). auto. }
  apply elem_of_cons in H1 as [E1 | H1]; apply elem_of_cons in H2 as [E2 | H2].
  - congruence.
  - injection E1 as -> ->. exfalso. eauto.
  - injection E2 as -> ->. exfalso. eauto.
  - apply IH; assumption.
Qed.

(** With distinct keys there is one way to put the pairs in key order. *)
Lemma sorted_pairs_unique (l pairs : dict) :
  dict_wf l -> pairs ≡ₚ l -> Sorted Spec.key_le pairs -> pairs = sorted_by_key l.
Proof.
  intros Hwf Hperm Hsorted.
  apply (Sorted_unique_strong Spec.key_le); [| exact Hsorted | apply sorted_by_key_sorted |].
  - intros [k1 v1] [k2 v2] H1 H2 Hle1 Hle2. unfold Spec.key_le in *. simpl in *.
    assert (k1 = k2) by (apply String.leb_antisym; assumption). subst k2.
    rewrite Hperm in H1. rewrite sorted_by_key_perm in H2.
    f_equal. eapply wf_value_unique; eassumption.
  - rewrite Hperm, sorted_by_key_perm. reflexivity.
Qed.

(** C5. The ["sign"] field [_sign_data] puts into the body is the
    signature of this procedure: the merchant id is put into the payload;
    the strategy's filter drops the values it names; the pairs left are
    taken in lexicographic order of their keys (for a payload with
    distinct keys there is one such order); they are URL-encoded, decoded
    per [plusAsSpace], the token is appended as [&token=<token>], and the
    MD5 digest of the result is written in upper-case hexadecimal. *)
Theorem sign_data_procedure (data : dict) (st : strategy) :
  dict_wf data ->
  (exists pairs,
     pairs ≡ₚ spec_kept (keep_zero st) data
     /\ Sorted Spec.key_le pairs
     /\ dict_lookup (_sign_data data st) "sign"
        = Some (PStr (spec_signature pairs (use_urldecode_plus st))))
  /\ (forall pairs,
        pairs ≡ₚ spec_kept (keep_zero st) data ->
        Sorted Spec.key_le pairs ->
        dict_lookup (_sign_data data st) "sign"
        = Some (PStr (spec_signature pairs (use_urldecode_plus st)))).
Proof.
  intros Hwf.
  assert (Hsign : dict_lookup (_sign_data data st) "sign"
                  = Some (PStr (spec_signature (sorted_by_key (spec_kept (keep_zero st) data))
                                  (use_urldecode_plus st)))).
  { unfold _sign_data. cbv zeta. rewrite filtered_spec, dict_lookup_set.
    unfold spec_signature. destruct (use_urldecode_plus st); reflexivity. }
  split.
  - exists (sorted_by_key (spec_kept (keep_zero st) data)).
    split; [apply sorted_by_key_perm |]. split; [apply sorted_by_key_sorted | exact Hsign].
  - intros pairs Hperm Hsorted.
    rewrite (sorted_pairs_unique _ pairs (spec_kept_wf _ _ Hwf) Hperm Hsorted).
    exact Hsign.
Qed.

(** *** Deposit-check normalisation *)

Lemma extract_paid_status_dict (r : dict) :
  _extract_paid_status (PDict r)
  = (ok_code (dict_get r "code") || PyStr.mem (status_of r) Spec.deposit_statuses)
    && PyStr.mem (py_str (pay_status_of r)) Spec.paid_words.
Proof.
  unfold _extract_paid_status. fold (status_of r). fold (pay_status_of r).
  change ["1"; "true"; "paid"; "success"] with Spec.paid_words.
  change ["success"; "ok"] with Spec.deposit_statuses.
  destruct (ok_code (dict_get r "code"));
    destruct (PyStr.mem (py_str (pay_status_of r)) Spec.paid_words);
    destruct (PyStr.mem (status_of r) Spec.deposit_statuses); reflexivity.
Qed.

Lemma paid_words_lower (s : string) :
  lower_fixes Spec.paid_words ->
  PyStr.mem s Spec.paid_words = true ->
  PyStr.mem (str_lower lib s) Spec.paid_words = true.
Proof.
  intros Hfix Hmem. unfold PyStr.mem in *.
  apply existsb_exists in Hmem as (word & Hin & Heq).
  apply String.eqb_eq in Heq. subst word.
  unfold lower_fixes in Hfix. rewrite Forall_forall in Hfix.
  rewrite (Hfix s (proj2 (list_elem_of_In _ _) Hin)).
  apply existsb_exists. exists s. split; [exact Hin | apply String.eqb_refl].
Qed.

(** C4, amended.  [str.lower] being a function of the library, the four
    paid words are taken to be their own lower case.  A deposit-check
    response counts as paid only if it is a dict that carries a success
    code (10000, 0 or 200) or a status that lower-cases to ["success"] or
    ["ok"], and the string of its payment status ([data.status], else
    [data.pay_status], else 0) is, ignoring case, one of the paid words; it
    counts as paid whenever the code or status is such and that string is
    exactly one of the paid words. *)
Theorem paid_status_normalisation (resp : pyval) :
  lower_fixes Spec.paid_words ->
  match resp with
  | PDict r =>
      let recognised :=
        ok_code (dict_get r "code") || PyStr.mem (status_of r) Spec.deposit_statuses in
      (_extract_paid_status resp = true ->
         recognised = true
         /\ PyStr.mem (str_lower lib (py_str (pay_status_of r))) Spec.paid_words = true)
      /\ (recognised = true ->
          PyStr.mem (py_str (pay_status_of r)) Spec.paid_words = true ->
          _extract_paid_status resp = true)
  | _ => _extract_paid_status resp = false
  end.
Proof.
  intros Hfix.
  destruct resp as [| b | n | f | s | l | r]; try reflexivity.
  cbv zeta. rewrite extract_paid_status_dict. split.
  - intros [Hrec Hpaid]%andb_prop. split; [exact Hrec |].
    apply paid_words_lower; [exact Hfix | exact Hpaid].
  - intros Hrec Hpaid. rewrite Hrec, Hpaid. reflexivity.
Qed.

(** *** Crediting exactly once *)

Lemma credit_inv_sym w0 unique_id row u a b w :
  credit_inv w0 unique_id row u a b w -> credit_inv w0 unique_id row u b a w.
Proof.
  intros [(Ho & Hu & Ha & Hb) | (Ho & Hu & [H | H])].
  - left. auto.
  - right. split; [exact Ho |]. split; [exact Hu |]. right. exact H.
  - right. split; [exact Ho |]. split; [exact Hu |]. left. exact H.
Qed.

Lemma check_deposit_paid (unique_id : string) (w : World) :
  gateway_reports_paid unique_id ->
  exists resp reqs,
    check_deposit unique_id w = (Return resp, push_sent reqs w)
    /\ _extract_paid_status resp = true.
Proof.
  intros Hgw. destruct (Hgw w) as (resp & Hres & Hpaid).
  destruct (check_deposit_frame unique_id w) as (reqs & Hw).
  exists resp, reqs. split; [| exact Hpaid].
  destruct (check_deposit unique_id w) as [r w1]. simpl in *. congruence.
Qed.

Section OneOrder.

Variables (w0 : World) (unique_id : string) (row : OrderRow) (u : UserRow).
Hypothesis Hrow : orders w0 !! unique_id = Some row.
Hypothesis Hfresh : credited row = 0.
Hypothesis Howner : users w0 !! user_id row = Some u.
Hypothesis Hpaid : gateway_reports_paid unique_id.

Lemma chk_step_inv (a b : chk_pc) (w : World) :
  credit_inv w0 unique_id row u a b w ->
  credit_inv w0 unique_id row u
    (fst (chk_step (user_id row) unique_id a w)) b
    (snd (chk_step (user_id row) unique_id a w)).
Proof.
  intros [(Ho & Hu & Ha & Hb) | ([now Ho] & Hu & Hab)].
  - (* nothing written yet *)
    destruct a as [| | | r]; [| | | contradiction].
    + unfold chk_step, bind, get_order. rewrite Ho, Hrow, Z.eqb_refl, Hfresh.
      simpl. left. auto.
    + unfold chk_step, bind.
      destruct (check_deposit_paid unique_id w Hpaid) as (resp & reqs & -> & ->).
      simpl. left. auto.
    + unfold chk_step, bind. rewrite mark_result, Ho, Hrow, Hfresh, Hu, Howner.
      simpl. right. split; [eauto |]. split; [reflexivity |].
      left. split; [reflexivity |]. destruct b; simpl; auto. contradiction.
  - (* the credit is written *)
    assert (Hcred : orders w !! unique_id = Some (set_paid_credited now row)).
    { rewrite Ho, lookup_alter, decide_True by reflexivity. rewrite Hrow. reflexivity. }
    assert (Hkeep : forall a', idle_or_settled a' ->
              (a = ChkDone (reply_text (msg_credited (amount row))) /\ idle_or_settled b
               \/ b = ChkDone (reply_text (msg_credited (amount row))) /\ idle_or_settled a) ->
              waiting a ->
              (a' = ChkDone (reply_text (msg_credited (amount row))) /\ idle_or_settled b
               \/ b = ChkDone (reply_text (msg_credited (amount row))) /\ idle_or_settled a')).
    { intros a' Ha' [[-> _] | [Hb _]] Hw; [contradiction | right; auto]. }
    destruct a as [| | | r].
    + unfold chk_step, bind, get_order. rewrite Hcred. simpl. rewrite Z.eqb_refl. simpl.
      right. split; [eauto |]. split; [exact Hu |].
      apply Hkeep; [left; reflexivity | exact Hab | exact I].
    + unfold chk_step, bind.
      destruct (check_deposit_paid unique_id w Hpaid) as (resp & reqs & -> & ->).
      simpl. right. split; [eauto |]. split; [exact Hu |].
      apply Hkeep; [exact I | exact Hab | exact I].
    + unfold chk_step, bind. rewrite mark_result, Hcred. simpl.
      right. split; [eauto |]. split; [exact Hu |].
      apply Hkeep; [right; reflexivity | exact Hab | exact I].
    + simpl. right. split; [eauto |]. split; [exact Hu |]. exact Hab.
Qed.

Lemma chk_step_progress (from_id : Z) (a : chk_pc) (w : World) :
  (steps_left (fst (chk_step from_id unique_id a w)) <= pred (steps_left a))%nat.
Proof.
  destruct a as [| | | r]; unfold chk_step, bind, get_order; simpl.
  - destruct (orders w !! unique_id) as [r |]; simpl; [| lia].
    destruct (negb (from_id =? user_id r)); simpl; [lia |].
    destruct (credited r =? 1); simpl; lia.
  - destruct (check_deposit unique_id w) as [[resp | e] w1]; simpl; [| lia].
    destruct (_extract_paid_status resp); simpl; lia.
  - destruct (mark_order_paid_and_credit unique_id w) as [[ok msg] w1]. simpl. lia.
  - lia.
Qed.

Lemma run_pair_inv (schedule : list bool) :
  forall (a b : chk_pc) (w : World),
  credit_inv w0 unique_id row u a b w ->
  let '((a', b'), w') := run_pair (user_id row) unique_id schedule a b w in
  credit_inv w0 unique_id row u a' b' w'
  /\ (steps_left a' <= steps_left a - turns true schedule)%nat
  /\ (steps_left b' <= steps_left b - turns false schedule)%nat.
Proof.
  induction schedule as [| who rest IH]; intros a b w Hinv.
  - simpl. split; [exact Hinv |]. unfold turns. simpl. lia.
  - destruct who; simpl; unfold bind.
    + pose proof (chk_step_inv a b w Hinv) as Hstep.
      pose proof (chk_step_progress (user_id row) a w) as Hprog.
      destruct (chk_step (user_id row) unique_id a w) as [a1 w1]. simpl in Hstep, Hprog.
      specialize (IH a1 b w1 Hstep).
      destruct (run_pair (user_id row) unique_id rest a1 b w1) as [[a' b'] w'].
      destruct IH as (Hinv' & Ha' & Hb'). split; [exact Hinv' |].
      unfold turns in *. simpl. split; lia.
    + pose proof (chk_step_inv b a w (credit_inv_sym _ _ _ _ _ _ _ Hinv)) as Hstep.
      pose proof (chk_step_progress (user_id row) b w) as Hprog.
      destruct (chk_step (user_id row) unique_id b w) as [b1 w1]. simpl in Hstep, Hprog.
      specialize (IH a b1 w1 (credit_inv_sym _ _ _ _ _ _ _ Hstep)).
      destruct (run_pair (user_id row) unique_id rest a b1 w1) as [[a' b'] w'].
      destruct IH as (Hinv' & Ha' & Hb'). split; [exact Hinv' |].
      unfold turns in *. simpl. split; lia.
Qed.

End OneOrder.

Lemma steps_left_done (pc : chk_pc) :
  (steps_left pc <= 0)%nat -> exists r, pc = ChkDone r.
Proof. destruct pc; simpl; intros; try lia. eauto. Qed.

(** Two calls for an uncredited order whose owner has a row. *)
Lemma two_calls_credit_once (w : World) (unique_id : string) (row : OrderRow)
    (u : UserRow) :
  orders w !! unique_id = Some row ->
  credited row = 0 ->
  users w !! user_id row = Some u ->
  gateway_reports_paid unique_id ->
  let credited_users :=
    update_points (user_id row) (Dec.add (points u) (amount row)) (users w) in
  let credited_msg := reply_text (msg_credited (amount row)) in
  (forall schedule : list bool,
     (3 <= turns true schedule)%nat -> (3 <= turns false schedule)%nat ->
     exists ra rb w',
       run_pair (user_id row) unique_id schedule ChkLookup ChkLookup w
       = ((ChkDone ra, ChkDone rb), w')
       /\ users w' = credited_users
       /\ (exists now, orders w' = alter (set_paid_credited now) unique_id (orders w))
       /\ ((ra = credited_msg /\ idempotent_reply rb)
           \/ (rb = credited_msg /\ idempotent_reply ra)))
  /\ (let '(r1, w1) := handle_check_payment (user_id row) unique_id w in
      let '(r2, w2) := handle_check_payment (user_id row) unique_id w1 in
      r1 = credited_msg /\ r2 = reply_text MSG_CREDITED_BEFORE
      /\ users w1 = credited_users /\ w2 = w1)
  /\ (let '(res1, w1) := mark_order_paid_and_credit unique_id w in
      let '(res2, w2) := mark_order_paid_and_credit unique_id w1 in
      res1 = (true, msg_credited (amount row))
      /\ res2 = (true, MSG_ALREADY_CREDITED)
      /\ users w1 = credited_users /\ w2 = w1).
Proof.
  intros Hrow Hfresh Howner Hpaid. cbv zeta.
  assert (Hnot1 : (credited row =? 1) = false) by (rewrite Hfresh; reflexivity).
  split; [| split].
  - intros schedule Ha Hb.
    assert (Hinit : credit_inv w unique_id row u ChkLookup ChkLookup w).
    { left. simpl. auto. }
    pose proof (run_pair_inv w unique_id row u Hrow Hfresh Howner Hpaid schedule
                  ChkLookup ChkLookup w Hinit) as Hrun.
    destruct (run_pair (user_id row) unique_id schedule ChkLookup ChkLookup w)
      as [[a' b'] w'].
    destruct Hrun as (Hinv & Ha' & Hb'). simpl in Ha', Hb'.
    destruct (steps_left_done a' ltac:(lia)) as [ra ->].
    destruct (steps_left_done b' ltac:(lia)) as [rb ->].
    exists ra, rb, w'. split; [reflexivity |].
    destruct Hinv as [(_ & _ & [] & _) | (Ho & Hu & Hab)].
    split; [exact Hu |]. split; [exact Ho |].
    destruct Hab as [[[= ->] Hrb] | [[= ->] Hra]]; [left | right]; auto.
  - destruct (check_deposit_paid unique_id w Hpaid) as (resp & reqs & Hcd & Hresp).
    set (w1 := {| users := update_points (user_id row)
                             (Dec.add (points u) (amount row)) (users w);
                  orders := alter (set_paid_credited (clock env (ticks w))) unique_id
                              (orders w);
                  sent := (sent w ++ reqs)%list; ticks := S (ticks w);
                  draws := draws w |}).
    assert (H1 : handle_check_payment (user_id row) unique_id w
                 = (reply_text (msg_credited (amount row)), w1)).
    { unfold handle_check_payment, bind, get_order.
      rewrite Hrow, Z.eqb_refl, Hnot1. cbn [negb]. rewrite Hcd, Hresp.
      rewrite mark_result. cbn [push_sent orders users ticks sent draws].
      rewrite Hrow, Hnot1, Howner. reflexivity. }
    assert (H2 : handle_check_payment (user_id row) unique_id w1
                 = (reply_text MSG_CREDITED_BEFORE, w1)).
    { unfold handle_check_payment, bind, get_order. cbn [orders w1].
      rewrite lookup_alter, decide_True by reflexivity. rewrite Hrow.
      cbn [fmap option_fmap option_map set_paid_credited user_id credited].
      rewrite Z.eqb_refl. reflexivity. }
    rewrite H1, H2. split; [reflexivity |]. split; [reflexivity |]. split; reflexivity.
  - set (w1 := {| users := update_points (user_id row)
                             (Dec.add (points u) (amount row)) (users w);
                  orders := alter (set_paid_credited (clock env (ticks w))) unique_id
                              (orders w);
                  sent := sent w; ticks := S (ticks w); draws := draws w |}).
    assert (H1 : mark_order_paid_and_credit unique_id w
                 = ((true, msg_credited (amount row)), w1)).
    { rewrite mark_result, Hrow, Hnot1, Howner. reflexivity. }
    assert (H2 : mark_order_paid_and_credit unique_id w1
                 = ((true, MSG_ALREADY_CREDITED), w1)).
    { rewrite mark_result. cbn [orders w1].
      rewrite lookup_alter, decide_True by reflexivity. rewrite Hrow. reflexivity. }
    rewrite H1, H2. split; [reflexivity |]. split; [reflexivity |]. split; reflexivity.
Qed.

(** The cut of [handle_check_payment] into steps is the handler itself. *)
Lemma handle_check_payment_steps (from_id : Z) (unique_id : string) (b : chk_pc)
    (w : World) :
  run_pair from_id unique_id [true; true; true] ChkLookup b w
  = ((ChkDone (fst (handle_check_payment from_id unique_id w)), b),
     snd (handle_check_payment from_id unique_id w)).
Proof.
  unfold run_pair, handle_check_payment, bind, ret, get_order. cbn [chk_step].
  unfold bind, ret, get_order.
  destruct (orders w !! unique_id) as [row |]; [| reflexivity].
  destruct (negb (from_id =? user_id row)); [reflexivity |].
  destruct (credited row =? 1); [reflexivity |]. cbn [chk_step]. unfold bind, ret.
  destruct (check_deposit unique_id w) as [[resp | e] w1]; [| reflexivity].
  destruct (_extract_paid_status resp); [| reflexivity]. cbn [chk_step]. unfold bind, ret.
  destruct (mark_order_paid_and_credit unique_id w1) as [[ok msg] w2]. reflexivity.
Qed.

(** *** Owners have a row *)

Lemma update_points_is_Some (uid uid' : Z) (p : Decimal) (us : gmap Z UserRow) :
  is_Some (us !! uid') -> is_Some (update_points uid p us !! uid').
Proof.
  intros [r Hr]. unfold update_points. rewrite lookup_alter.
  destruct (decide (uid = uid')) as [-> | _]; rewrite Hr; simpl; eauto.
Qed.

Lemma ensure_user_keeps (user : TgUser) (w : World) (uid : Z) :
  is_Some (users w !! uid) -> is_Some (users (snd (ensure_user user w)) !! uid).
Proof.
  intros [r Hr]. unfold ensure_user, bind, time_now. simpl. rewrite lookup_alter.
  destruct (decide (tg_id user = uid)) as [-> | Hne].
  - rewrite Hr. simpl. rewrite Hr. simpl. eauto.
  - destruct (users w !! tg_id user); [rewrite Hr; eauto |].
    rewrite lookup_insert_ne by exact Hne. rewrite Hr. eauto.
Qed.

Lemma mark_keeps_users (unique_id : string) (w : World) (uid : Z) :
  is_Some (users w !! uid)
  -> is_Some (users (snd (mark_order_paid_and_credit unique_id w)) !! uid).
Proof.
  intros Hu. rewrite mark_result.
  destruct (orders w !! unique_id) as [row |]; [| exact Hu].
  destruct (credited row =? 1); [exact Hu |]. simpl. apply update_points_is_Some, Hu.
Qed.

Lemma mark_keeps_owner (unique_id : string) (w : World) (k : string) (row : OrderRow) :
  orders (snd (mark_order_paid_and_credit unique_id w)) !! k = Some row ->
  exists row0, orders w !! k = Some row0 /\ user_id row = user_id row0.
Proof.
  rewrite mark_result.
  destruct (orders w !! unique_id) as [r |] eqn:E; [| eauto].
  destruct (credited r =? 1); [eauto |]. simpl. rewrite lookup_alter.
  destruct (decide (unique_id = k)) as [<- | _]; [| eauto].
  rewrite E. simpl. intros [= <-]. eauto.
Qed.

(** What [cz_create] writes: nothing, or one pending order of the caller. *)
Lemma cz_create_effect (user : TgUser) (amount : Decimal) (w : World) :
  users (snd (cz_create user amount w)) = users w
  /\ (orders (snd (cz_create user amount w)) = orders w
      \/ exists k oid url now,
           orders w !! k = None
           /\ orders (snd (cz_create user amount w))
              = <[k := pending_order (tg_id user) amount oid url now]> (orders w)).
Proof.
  rewrite cz_create_unfold.
  destruct (cz_link_frame user amount w) as (Hu & Ho & _).
  destruct (cz_link user amount w) as [[unique_id r] w2]. cbn [snd] in Hu, Ho.
  rewrite <- Hu, <- Ho.
  destruct r as [resp | e]; [| split; [reflexivity | left; reflexivity]].
  destruct (_extract_pay_result resp) as [[success oid] url].
  destruct success; simpl; [| split; [reflexivity | left; reflexivity]].
  rewrite create_order_result.
  destruct (orders w2 !! unique_id) eqn:E; simpl; [split; [reflexivity | left; reflexivity] |].
  split; [reflexivity |]. right. eauto 6.
Qed.

Lemma exec_op_owners (o : op) (w : World) :
  by_handlers o -> owners_registered w -> owners_registered (exec_op o w).
Proof.
  intros Hby Hreg. destruct o as [[user | uid amt | | unique_id] | user args | from_id unique_id];
    simpl in *; try contradiction.
  - intros k row Hrow. apply ensure_user_keeps. eapply Hreg. exact Hrow.
  - unfold deduct_points_if_enough. destruct (Dec.lt _ amt); [exact Hreg |].
    intros k row Hrow. simpl in *. apply update_points_is_Some. eapply Hreg. exact Hrow.
  - intros k row Hrow. apply mark_keeps_owner in Hrow as (row0 & Hrow0 & ->).
    apply mark_keeps_users. eapply Hreg. exact Hrow0.
  - assert (Hafter : forall w1, users w1 = users (snd (ensure_user user w)) ->
                       orders w1 = orders w -> owners_registered w1).
    { intros w1 Hu Ho k row. rewrite Hu, Ho. intros Hrow.
      apply ensure_user_keeps. eapply Hreg. exact Hrow. }
    unfold cz, bind. destruct (ensure_user user w) as [[] w1] eqn:Heu.
    assert (Hw1 : w1 = snd (ensure_user user w)) by (rewrite Heu; reflexivity).
    destruct args as [| arg [| arg' rest]]; try (apply Hafter; subst w1; reflexivity).
    destruct arg as [| | negative | amount]; try (apply Hafter; subst w1; reflexivity).
    + destruct negative; apply Hafter; subst w1; reflexivity.
    + destruct (Dec.lt amount (Dec.of_Z 3)); [apply Hafter; subst w1; reflexivity |].
      destruct (Dec.gt amount (Dec.of_Z 10000)); [apply Hafter; subst w1; reflexivity |].
      destruct (cz_create_effect user amount w1) as (Hu & [Ho | (k & oid & url & now & _ & Ho)]).
      * apply Hafter; [rewrite Hu; subst w1; reflexivity | rewrite Ho; subst w1; reflexivity].
      * intros k' row. rewrite Hu, Ho. subst w1.
        destruct (decide (k = k')) as [<- | Hne].
        -- rewrite lookup_insert_eq. intros [= <-]. simpl. apply ensure_user_registers.
        -- rewrite lookup_insert_ne by exact Hne. intros Hrow.
           apply ensure_user_keeps. eapply Hreg. exact Hrow.
  - unfold handle_check_payment, bind, get_order.
    destruct (orders w !! unique_id) as [row |]; [| exact Hreg].
    destruct (negb (from_id =? user_id row)); [exact Hreg |].
    destruct (credited row =? 1); [exact Hreg |].
    destruct (check_deposit_frame unique_id w) as (reqs & Hw).
    destruct (check_deposit unique_id w) as [[resp | e] w1]; cbn [snd] in Hw; subst w1;
      [| exact Hreg].
    destruct (_extract_paid_status resp); [| exact Hreg].
    assert (Hreg' : owners_registered (push_sent reqs w)) by exact Hreg.
    intros k r Hr.
    destruct (mark_order_paid_and_credit unique_id (push_sent reqs w)) as [[ok msg] w2] eqn:Hm.
    change w2 with (snd ((ok, msg), w2)) in Hr |- *. rewrite <- Hm in Hr |- *.
    apply mark_keeps_owner in Hr as (row0 & Hrow0 & ->).
    apply mark_keeps_users. eapply Hreg'. exact Hrow0.
Qed.

(** Orders come from [cz], which registers its caller first, and rows of
    [users] are never removed: in every reachable state each order's owner
    has a row. *)
Lemma reachable_owners (w : World) : reachable w -> owners_registered w.
Proof.
  induction 1 as [| o w Hby _ IH | unique_id uid amt oid url w _ IH Hu | w w' _ IH Hu Ho].
  - intros k row Hrow. simpl in Hrow. rewrite lookup_empty in Hrow. discriminate.
  - apply exec_op_owners; assumption.
  - rewrite create_order_result.
    destruct (orders w !! unique_id) eqn:E; [exact IH |].
    intros k row. simpl. destruct (decide (unique_id = k)) as [<- | Hne].
    + rewrite lookup_insert_eq. intros [= <-]. exact Hu.
    + rewrite lookup_insert_ne by exact Hne. apply IH.
  - intros k row. rewrite Hu, Ho. apply IH.
Qed.

(** C1, amended.  In every reachable state, for every order not yet
    credited and a gateway that reports it paid: the owner has a balance,
    and two calls of [handle_check_payment] by the owner, run one after the
    other or interleaved at their [await]s in any way, both end with a
    success reply, one that the amount was credited and one that the order
    had been credited before; the owner's balance has become
    [current + amount] as [Decimal] adds in the default context, written
    once, and no other balance has changed.  That sum keeps 28 significant
    digits: it is the exact sum when the exact sum has no more, and the
    exact sum rounded otherwise, so the increase can differ from the
    order's amount.
    Inside [mark_order_paid_and_credit] the [credited] flag is read again:
    a second run finds it set, writes nothing and returns
    [(True, already credited)]. *)
Theorem credit_exactly_once (w : World) (unique_id : string) (row : OrderRow) :
  reachable w ->
  orders w !! unique_id = Some row ->
  credited row = 0 ->
  gateway_reports_paid unique_id ->
  exists u,
    users w !! user_id row = Some u
    /\ (Dec.ndigits (coef (Dec.exact_add (points u) (amount row))) <= Dec.prec ->
        Dec.add (points u) (amount row) = Dec.exact_add (points u) (amount row))
    /\ let credited_users :=
         update_points (user_id row) (Dec.add (points u) (amount row)) (users w) in
       let credited_msg := reply_text (msg_credited (amount row)) in
       (forall schedule : list bool,
          (3 <= turns true schedule)%nat -> (3 <= turns false schedule)%nat ->
          exists ra rb w',
            run_pair (user_id row) unique_id schedule ChkLookup ChkLookup w
            = ((ChkDone ra, ChkDone rb), w')
            /\ users w' = credited_users
            /\ (exists now, orders w' = alter (set_paid_credited now) unique_id (orders w))
            /\ ((ra = credited_msg /\ idempotent_reply rb)
                \/ (rb = credited_msg /\ idempotent_reply ra)))
       /\ (let '(r1, w1) := handle_check_payment (user_id row) unique_id w in
           let '(r2, w2) := handle_check_payment (user_id row) unique_id w1 in
           r1 = credited_msg /\ r2 = reply_text MSG_CREDITED_BEFORE
           /\ users w1 = credited_users /\ w2 = w1)
       /\ (let '(res1, w1) := mark_order_paid_and_credit unique_id w in
           let '(res2, w2) := mark_order_paid_and_credit unique_id w1 in
           res1 = (true, msg_credited (amount row))
           /\ res2 = (true, MSG_ALREADY_CREDITED)
           /\ users w1 = credited_users /\ w2 = w1).
Proof.
  intros Hreach Hrow Hfresh Hpaid.
  destruct (reachable_owners w Hreach unique_id row Hrow) as [u Hu].
  exists u. split; [exact Hu |]. split; [apply add_exact |].
  exact (two_calls_credit_once w unique_id row u Hrow Hfresh Hu Hpaid).
Qed.

(** ** Further properties of the stores and handlers *)

Lemma get_points_lookup (uid : Z) (w : World) :
  fst (get_points uid w)
  = match users w !! uid with Some row => points row | None => Dec.zero end.
Proof. unfold get_points. destruct (users w !! uid); reflexivity. Qed.

Lemma ensure_user_users (user : TgUser) (w : World) :
  users (snd (ensure_user user w))
  = alter (fun row => {| username := match tg_username user with Some n => n | None => "" end;
                         full_name := tg_full_name user;
                         points := points row;
                         user_created_at := user_created_at row |})
      (tg_id user)
      (match users w !! tg_id user with
       | Some _ => users w
       | None =>
           <[tg_id user := {| username := match tg_username user with
                                          | Some n => n | None => "" end;
                              full_name := tg_full_name user;
                              points := Dec.zero;
                              user_created_at := clock env (ticks w) |}]> (users w)
       end).
Proof. reflexivity. Qed.

Lemma ensure_user_points (user : TgUser) (w : World) (uid : Z) :
  fst (get_points uid (snd (ensure_user user w))) = fst (get_points uid w).
Proof.
  rewrite !get_points_lookup, ensure_user_users, lookup_alter.
  destruct (decide (tg_id user = uid)) as [<- | Hne].
  - destruct (users w !! tg_id user) as [row |] eqn:E.
    + rewrite E. reflexivity.
    + rewrite lookup_insert_eq. reflexivity.
  - destruct (users w !! tg_id user) as [row |] eqn:E; [reflexivity |].
    rewrite lookup_insert_ne by exact Hne. reflexivity.
Qed.

(** X1. [ensure_user] is an upsert that never touches a balance: what
    [get_points] reports is the same for every user before and after (a
    new user is stored with 0, which is what [get_points] reported for the
    missing row), the caller has a row afterwards, no other row and no
    order changes, and a second call leaves [users] as the first did. *)
Theorem ensure_user_upsert (user : TgUser) (w : World) :
  let w' := snd (ensure_user user w) in
  (forall uid, fst (get_points uid w') = fst (get_points uid w))
  /\ is_Some (users w' !! tg_id user)
  /\ (forall uid, uid <> tg_id user -> users w' !! uid = users w !! uid)
  /\ orders w' = orders w /\ sent w' = sent w
  /\ users (snd (ensure_user user w')) = users w'.
Proof.
  cbv zeta. split; [intros uid; apply ensure_user_points |].
  split; [apply ensure_user_registers |].
  split.
  { intros uid Hne. rewrite ensure_user_users, lookup_alter.
    rewrite decide_False by congruence.
    destruct (users w !! tg_id user); [reflexivity |].
    rewrite lookup_insert_ne by congruence. reflexivity. }
  split; [reflexivity |]. split; [reflexivity |].
  destruct (ensure_user_registers user w) as [row Hrow].
  rewrite (ensure_user_users user (snd (ensure_user user w))), Hrow.
  apply map_eq. intros uid. rewrite lookup_alter.
  destruct (decide (tg_id user = uid)) as [<- | Hne]; [| reflexivity].
  rewrite Hrow. simpl. f_equal.
  rewrite ensure_user_users, lookup_alter, decide_True in Hrow by reflexivity.
  destruct (match users w !! tg_id user with
            | Some _ => users w
            | None => _
            end !! tg_id user) as [row0 |]; simpl in Hrow; [| discriminate].
  injection Hrow as <-. reflexivity.
Qed.


(** X3. [deduct_points_if_enough] changes nothing but the [points] of the
    named user: orders, the request log and every other row are as before
    and the row keeps its names and creation time.  For a user without a
    row nothing is written whatever the result, and the result is [True]
    only when the amount is not above 0. *)
Theorem deduct_points_frame (uid : Z) (amount : Decimal) (w : World) :
  let ok := fst (deduct_points_if_enough uid amount w) in
  let w' := snd (deduct_points_if_enough uid amount w) in
  orders w' = orders w /\ sent w' = sent w
  /\ (forall uid', uid' <> uid -> users w' !! uid' = users w !! uid')
  /\ (forall row, users w !! uid = Some row ->
        exists row', users w' !! uid = Some row'
          /\ username row' = username row /\ full_name row' = full_name row
          /\ user_created_at row' = user_created_at row)
  /\ (users w !! uid = None ->
        w' = w /\ ok = negb (Dec.lt Dec.zero amount)).
Proof.
  cbv zeta. unfold deduct_points_if_enough.
  destruct (users w !! uid) as [row |] eqn:Hrow.
  - destruct (Dec.lt (points row) amount); cbn [fst snd set_users orders sent users].
    + split; [reflexivity |]. split; [reflexivity |]. split; [reflexivity |].
      split; [| discriminate]. intros r [= <-]. exists row. rewrite Hrow. auto.
    + split; [reflexivity |]. split; [reflexivity |].
      split.
      { intros uid' Hne. unfold update_points. rewrite lookup_alter.
        rewrite decide_False by congruence. reflexivity. }
      split; [| discriminate].
      intros r [= <-]. unfold update_points. rewrite lookup_alter.
      rewrite decide_True by reflexivity. rewrite Hrow. simpl. eauto.
  - destruct (Dec.lt Dec.zero amount); cbn [fst snd set_users orders sent users].
    + split; [reflexivity |]. split; [reflexivity |]. split; [reflexivity |].
      split; [discriminate |]. intros _. split; reflexivity.
    + rewrite (update_points_absent uid _ (users w) Hrow).
      split; [reflexivity |]. split; [reflexivity |]. split; [reflexivity |].
      split; [discriminate |]. intros _. split; [destruct w |]; reflexivity.
Qed.

(** X4. [mark_order_paid_and_credit] on an identifier that has no order
    returns [(False, order missing)] and writes nothing.  On an order it
    finds, it leaves every other order and the row of every user but the
    owner as they were. *)
Theorem mark_order_frame (unique_id : string) (w : World) :
  let w' := snd (mark_order_paid_and_credit unique_id w) in
  (orders w !! unique_id = None ->
     mark_order_paid_and_credit unique_id w = ((false, MSG_ORDER_MISSING), w))
  /\ (forall k, k <> unique_id -> orders w' !! k = orders w !! k)
  /\ (forall row uid, orders w !! unique_id = Some row -> uid <> user_id row ->
        users w' !! uid = users w !! uid)
  /\ sent w' = sent w.
Proof.
  cbv zeta. rewrite mark_result.
  destruct (orders w !! unique_id) as [row |] eqn:Hrow.
  - destruct (credited row =? 1); cbn [snd orders users sent].
    + split; [discriminate |]. split; [reflexivity |]. split; reflexivity.
    + split; [discriminate |].
      split.
      { intros k Hne. rewrite lookup_alter, decide_False by congruence. reflexivity. }
      split; [| reflexivity].
      intros r uid [= <-] Hne. unfold update_points.
      rewrite lookup_alter, decide_False by congruence. reflexivity.
  - split; [reflexivity |]. split; [reflexivity |]. split; [discriminate | reflexivity].
Qed.

(** X5. The outcomes of [handle_check_payment] that credit nothing.  For
    an unknown order, and for the owner of an order already credited, it
    replies at once and the world is untouched: no request goes to the
    gateway.  For the owner of an uncredited order it asks the gateway,
    and when the call raises or the response is not counted as paid, it
    replies so and only the request log has grown. *)
Theorem check_payment_without_credit (from_id : Z) (unique_id : string) (w : World) :
  (orders w !! unique_id = None ->
     handle_check_payment from_id unique_id w = (reply_text MSG_NO_ORDER, w))
  /\ (forall row, orders w !! unique_id = Some row -> from_id = user_id row ->
        credited row = 1 ->
        handle_check_payment from_id unique_id w = (reply_text MSG_CREDITED_BEFORE, w))
  /\ (forall row, orders w !! unique_id = Some row -> from_id = user_id row ->
        credited row <> 1 ->
        let w1 := snd (check_deposit unique_id w) in
        users w1 = users w /\ orders w1 = orders w
        /\ match fst (check_deposit unique_id w) with
           | Raise _ =>
               handle_check_payment from_id unique_id w
               = (reply_text MSG_QUERY_FAILED, w1)
           | Return resp =>
               _extract_paid_status resp = false ->
               handle_check_payment from_id unique_id w = (reply_text MSG_NOT_PAID, w1)
           end).
Proof.
  split; [| split].
  - intros Hnone. unfold handle_check_payment, bind, get_order. rewrite Hnone. reflexivity.
  - intros row Hrow -> Hcred. unfold handle_check_payment, bind, get_order.
    rewrite Hrow, Z.eqb_refl, Hcred. reflexivity.
  - intros row Hrow -> Hcred. cbv zeta.
    destruct (check_deposit_frame unique_id w) as (reqs & Hw).
    unfold handle_check_payment, bind, get_order. rewrite Hrow, Z.eqb_refl.
    destruct (Z.eqb_spec (credited row) 1) as [? | _]; [contradiction |]. cbn [negb].
    destruct (check_deposit unique_id w) as [[resp | e] w1]; cbn [fst snd] in *; subst w1.
    + split; [reflexivity |]. split; [reflexivity |]. intros ->. reflexivity.
    + split; [reflexivity |]. split; reflexivity.
Qed.

Lemma msg_credited_not_failed (amount : Decimal) :
  msg_credited amount <> MSG_CREDIT_FAILED.
Proof. unfold msg_credited, MSG_CREDIT_FAILED. simpl. intros H. discriminate H. Qed.

(** X6. [handle_check_payment] never sends the "credit failed" reply: the
    order it has just read is still there when
    [mark_order_paid_and_credit] looks for it. *)
Theorem check_payment_never_credit_failed (from_id : Z) (unique_id : string) (w : World) :
  fst (handle_check_payment from_id unique_id w) <> reply_text MSG_CREDIT_FAILED.
Proof.
  unfold handle_check_payment, bind, get_order.
  destruct (orders w !! unique_id) as [row |] eqn:Hrow; [| simpl; intros [=]].
  destruct (negb (from_id =? user_id row)); [simpl; intros [=] |].
  destruct (credited row =? 1) eqn:Hcred; [simpl; intros [=] |].
  destruct (check_deposit_frame unique_id w) as (reqs & Hw).
  destruct (check_deposit unique_id w) as [[resp | e] w1]; cbn [fst snd] in *; subst w1;
    [| simpl; intros [=]].
  destruct (_extract_paid_status resp); [| simpl; intros [=]].
  rewrite mark_result. cbn [push_sent orders]. rewrite Hrow, Hcred. cbn [fst].
  intros H. unfold reply_text, ret in H. cbn [fst] in H.
  apply (msg_credited_not_failed (amount row)). congruence.
Qed.

Lemma after_first_colon_checkpay (unique_id : string) :
  after_first_colon ("checkpay:" ++ unique_id) = Some unique_id.
Proof. reflexivity. Qed.

(** X7. The callback data [cz] puts on its "I have paid" button leads
    back to the order: [button_click] on it runs [handle_check_payment]
    for exactly the order's [unique_id], whatever characters it holds.
    Data that is none of the five menu buttons and does not start with
    ["checkpay:"] gets no reply and changes nothing. *)
Theorem button_click_checkpay (from_id : Z) (unique_id oid url : string)
    (amount : Decimal) (w : World) :
  (exists label data,
      nth 1 (keyboard (reply_order_created unique_id oid url amount)) []
      = [CallbackButton label data]
      /\ button_click from_id data w
         = (Return (Some (fst (handle_check_payment from_id unique_id w))),
            snd (handle_check_payment from_id unique_id w)))
  /\ (forall data,
        ~ In data ["btn_ddz"; "btn_dt"; "btn_zdz"; "btn_zdz2"; "btn_jdz"] ->
        String.prefix "checkpay:" data = false ->
        button_click from_id data w = (Return None, w)).
Proof.
  split.
  - exists "✅ 我已支付，点击查询", ("checkpay:" ++ unique_id). split; [reflexivity |].
    assert (Hpre : String.prefix "checkpay:" ("checkpay:" ++ unique_id) = true)
      by (destruct unique_id; reflexivity).
    unfold button_click.
    change (String.eqb ("checkpay:" ++ unique_id) "btn_ddz") with false.
    change (String.eqb ("checkpay:" ++ unique_id) "btn_dt") with false.
    change (String.eqb ("checkpay:" ++ unique_id) "btn_zdz") with false.
    change (String.eqb ("checkpay:" ++ unique_id) "btn_zdz2") with false.
    change (String.eqb ("checkpay:" ++ unique_id) "btn_jdz") with false.
    cbv iota. rewrite Hpre, after_first_colon_checkpay. unfold bind, ret.
    destruct (handle_check_payment from_id unique_id w) as [r w1]. reflexivity.
  - intros data Hnot Hpre. unfold button_click.
    repeat match goal with
           | |- context [String.eqb data ?s] =>
               destruct (String.eqb_spec data s) as [-> | _];
               [exfalso; apply Hnot; simpl; tauto |]
           end.
    rewrite Hpre. reflexivity.
Qed.

Lemma cost_positive (cmd : paid_cmd) : Dec.lt Dec.zero (COST cmd) = true.
Proof. destruct cmd; reflexivity. Qed.

(** X8. [paid_command] registers the caller and then: replies "format
    error" without charging when the message has not exactly three words;
    replies "insufficient" without charging when the balance is below the
    command's price, as it is for every user who had no row; and
    otherwise deducts exactly the price from the caller, leaving every
    other balance and all orders as they were. *)
Theorem paid_command_charges (user : TgUser) (parts : list string) (cmd : paid_cmd)
    (w : World) :
  let w1 := snd (ensure_user user w) in
  let balance := fst (get_points (tg_id user) w) in
  let res := fst (paid_command user parts cmd w) in
  let w' := snd (paid_command user parts cmd w) in
  (length parts <> 3%nat ->
     paid_command user parts cmd w = (reply_text MSG_BAD_FORMAT, w1))
  /\ (length parts = 3%nat -> Dec.lt balance (COST cmd) = true ->
        paid_command user parts cmd w = (reply_text INSUFFICIENT_TEXT, w1))
  /\ (length parts = 3%nat -> users w !! tg_id user = None ->
        paid_command user parts cmd w = (reply_text INSUFFICIENT_TEXT, w1))
  /\ (length parts = 3%nat -> Dec.lt balance (COST cmd) = false ->
        res = reply_text MAINTAIN_TEXT
        /\ fst (get_points (tg_id user) w') = Dec.sub balance (COST cmd)
        /\ (forall uid, uid <> tg_id user ->
              fst (get_points uid w') = fst (get_points uid w))
        /\ orders w' = orders w /\ sent w' = sent w).
Proof.
  cbv zeta.
  assert (Hbal : match users (snd (ensure_user user w)) !! tg_id user with
                 | Some row => points row
                 | None => Dec.zero
                 end = fst (get_points (tg_id user) w)).
  { rewrite <- get_points_lookup. apply ensure_user_points. }
  assert (Hlow : length parts = 3%nat ->
                 Dec.lt (fst (get_points (tg_id user) w)) (COST cmd) = true ->
                 paid_command user parts cmd w
                 = (reply_text INSUFFICIENT_TEXT, snd (ensure_user user w))).
  { intros Hlen Hlt. unfold paid_command, bind, parse_name_id_args.
    destruct (ensure_user user w) as [[] w1]. cbn [snd] in *.
    rewrite Hlen. cbn [Nat.eqb negb]. unfold deduct_points_if_enough.
    rewrite Hbal, Hlt. reflexivity. }
  split; [| split; [exact Hlow | split]].
  - intros Hlen. unfold paid_command, bind, parse_name_id_args.
    destruct (ensure_user user w) as [[] w1].
    destruct (Nat.eqb_spec (length parts) 3) as [? | _]; [contradiction |]. reflexivity.
  - intros Hlen Hnone. apply Hlow; [exact Hlen |].
    rewrite get_points_lookup, Hnone. apply cost_positive.
  - intros Hlen Hge.
    pose proof (ensure_user_points user w) as Hpts.
    destruct (ensure_user_registers user w) as [row Hrow].
    destruct (ensure_user_orders user w) as [Ho Hs].
    unfold paid_command, bind, parse_name_id_args.
    destruct (ensure_user user w) as [[] w1]. cbn [snd] in *.
    rewrite Hlen. cbn [Nat.eqb negb]. unfold deduct_points_if_enough.
    rewrite Hbal, Hge. unfold ret. cbn [negb fst snd set_users users orders sent].
    split; [reflexivity |].
    split.
    { rewrite get_points_lookup. simpl. unfold update_points.
      rewrite lookup_alter. rewrite decide_True by reflexivity. rewrite Hrow. reflexivity. }
    split.
    { intros uid Hne. rewrite get_points_lookup. simpl. unfold update_points.
      rewrite lookup_alter. rewrite decide_False by congruence.
      rewrite <- get_points_lookup. apply Hpts. }
    split; assumption.
Qed.

(** X9. [cz] without a usable amount.  With no argument, several
    arguments or a word [Decimal] cannot read it replies with the usage
    line; with an infinity it replies "too low" or "too high"; with a NaN
    the comparison raises.  In each case the caller has been registered,
    no request has gone to the gateway and no order is stored. *)
Theorem cz_rejects_bad_arguments (user : TgUser) (args : list DecimalArg) (w : World) :
  let w1 := snd (ensure_user user w) in
  (length args <> 1%nat -> cz user args w = (Return (reply_text USAGE_CZ), w1))
  /\ cz user [ArgInvalid] w = (Return (reply_text USAGE_CZ), w1)
  /\ cz user [ArgNaN] w = (Raise "InvalidOperation", w1)
  /\ cz user [ArgInfinity true] w = (Return (reply_text MSG_TOO_LOW), w1)
  /\ cz user [ArgInfinity false] w = (Return (reply_text MSG_TOO_HIGH), w1)
  /\ is_Some (users w1 !! tg_id user) /\ sent w1 = sent w /\ orders w1 = orders w.
Proof.
  cbv zeta.
  assert (Heq : forall r, (let (_, w') := ensure_user user w in @ret (outcome Reply) r w')
                          = (r, snd (ensure_user user w))).
  { intros r. destruct (ensure_user user w) as [[] w1]. reflexivity. }
  split.
  { intros Hlen. unfold cz, bind.
    destruct args as [| a [| b rest]]; [apply Heq | simpl in Hlen; lia | apply Heq]. }
  unfold cz, bind. repeat (split; [apply Heq |]).
  split; [apply ensure_user_registers |]. split; reflexivity.
Qed.

(** X10. [cz] never overwrites an order: when the identifier it has
    generated is already taken, the insert raises out of the handler and
    [orders] is exactly as before, although the gateway has created a
    payment link. *)
Theorem cz_keeps_existing_order (user : TgUser) (amount : Decimal) (w : World)
    (resp : pyval) (oid url : string) (row : OrderRow) :
  Dec.lt amount (Dec.of_Z 3) = false ->
  Dec.gt amount (Dec.of_Z 10000) = false ->
  let link := cz_link user amount (snd (ensure_user user w)) in
  snd (fst link) = Return resp ->
  _extract_pay_result resp = (true, oid, url) ->
  orders w !! fst (fst link) = Some row ->
  (exists e, fst (cz user [ArgFinite amount] w) = Raise e)
  /\ orders (snd (cz user [ArgFinite amount] w)) = orders w.
Proof.
  intros Hlo Hhi. cbv zeta. intros Hresp Hext Htaken.
  rewrite (cz_in_range user amount w Hlo Hhi), cz_create_unfold.
  destruct (cz_link_frame user amount (snd (ensure_user user w))) as (_ & Ho & _).
  destruct (cz_link user amount (snd (ensure_user user w))) as [[unique_id r] w2].
  cbn [fst snd] in *. subst r. rewrite Hext. cbn [negb].
  rewrite create_order_result, Ho.
  change (orders (snd (ensure_user user w))) with (orders w). rewrite Htaken.
  cbn [fst snd orders]. split; [eauto | reflexivity].
Qed.

Lemma cz_users (user : TgUser) (args : list DecimalArg) (w : World) :
  users (snd (cz user args w)) = users (snd (ensure_user user w)).
Proof.
  unfold cz, bind. destruct (ensure_user user w) as [[] w1]. cbn [snd].
  destruct args as [| arg [| arg' rest]]; try reflexivity.
  destruct arg as [| | negative | amount]; try reflexivity.
  - destruct negative; reflexivity.
  - destruct (Dec.lt amount (Dec.of_Z 3)); [reflexivity |].
    destruct (Dec.gt amount (Dec.of_Z 10000)); [reflexivity |].
    apply cz_create_effect.
Qed.

(** X11. Creating an order credits nothing: whatever its arguments and
    whatever the gateway answers, [cz] leaves the balance [get_points]
    reports for every user as it was. *)
Theorem cz_keeps_balances (user : TgUser) (args : list DecimalArg) (w : World) (uid : Z) :
  fst (get_points uid (snd (cz user args w))) = fst (get_points uid w).
Proof.
  rewrite <- (ensure_user_points user w uid), !get_points_lookup, cz_users. reflexivity.
Qed.

(** *** What happens to an order *)

Lemma mark_orders_change (unique_id : string) (w : World) :
  orders_change (orders w) (orders (snd (mark_order_paid_and_credit unique_id w))).
Proof.
  rewrite mark_result. destruct (orders w !! unique_id) as [row |] eqn:Hrow;
    [| left; reflexivity].
  destruct (Z.eqb_spec (credited row) 1) as [Hc | Hc]; [left; reflexivity |].
  right. right. exists unique_id, (clock env (ticks w)), row.
  split; [exact Hrow |]. split; [exact Hc |]. cbn [snd orders].
  apply map_eq. intros k. rewrite lookup_alter.
  destruct (decide (unique_id = k)) as [<- | Hne].
  - rewrite lookup_insert_eq, Hrow. reflexivity.
  - rewrite lookup_insert_ne by exact Hne. reflexivity.
Qed.

Lemma exec_op_orders_change (o : op) (w : World) :
  orders_change (orders w) (orders (exec_op o w)).
Proof.
  destruct o as [[user | uid amt | unique_id uid amt oid url | unique_id]
                | user args | from_id unique_id]; simpl.
  - left. reflexivity.
  - unfold deduct_points_if_enough. destruct (Dec.lt _ _); left; reflexivity.
  - rewrite create_order_result.
    destruct (orders w !! unique_id) eqn:E; [left; reflexivity |].
    right. left. exists unique_id, uid, amt, oid, url, (clock env (ticks w)).
    split; [exact E | reflexivity].
  - apply mark_orders_change.
  - unfold cz, bind. destruct (ensure_user user w) as [[] w1] eqn:Heu.
    assert (Ho : orders w1 = orders w).
    { change w1 with (snd (tt, w1)). rewrite <- Heu. reflexivity. }
    rewrite <- Ho.
    destruct args as [| arg [| arg' rest]]; try (left; reflexivity).
    destruct arg as [| | negative | amount]; try (left; reflexivity).
    + destruct negative; left; reflexivity.
    + destruct (Dec.lt amount (Dec.of_Z 3)); [left; reflexivity |].
      destruct (Dec.gt amount (Dec.of_Z 10000)); [left; reflexivity |].
      destruct (cz_create_effect user amount w1)
        as (_ & [Hsame | (k & oid & url & now & Hfree & Hnew)]).
      * left. exact Hsame.
      * right. left. exists k, (tg_id user), amount, oid, url, now. auto.
  - unfold handle_check_payment, bind, get_order.
    destruct (orders w !! unique_id) as [row |]; [| left; reflexivity].
    destruct (negb (from_id =? user_id row)); [left; reflexivity |].
    destruct (credited row =? 1); [left; reflexivity |].
    destruct (check_deposit_frame unique_id w) as (reqs & Hw).
    destruct (check_deposit unique_id w) as [[resp | e] w1]; cbn [snd] in Hw; subst w1;
      [| left; reflexivity].
    destruct (_extract_paid_status resp); [| left; reflexivity].
    pose proof (mark_orders_change unique_id (push_sent reqs w)) as Hstep.
    destruct (mark_order_paid_and_credit unique_id (push_sent reqs w)) as [[ok msg] w2].
    exact Hstep.
Qed.

(** An order that exists is kept by a step, unchanged or credited. *)
Lemma orders_change_old (os os' : gmap string OrderRow) (k : string) (row : OrderRow) :
  orders_change os os' -> os !! k = Some row ->
  os' !! k = Some row
  \/ (credited row <> 1 /\ exists now, os' !! k = Some (set_paid_credited now row)).
Proof.
  intros [-> | [(k' & uid & amt & oid & url & now & Hfree & ->)
               | (k' & now & r & Hr & Hc & ->)]] Hrow.
  - left. exact Hrow.
  - left. rewrite lookup_insert_ne by congruence. exact Hrow.
  - destruct (decide (k' = k)) as [-> | Hne].
    + right. rewrite Hrow in Hr. injection Hr as <-.
      split; [exact Hc |]. exists now. apply lookup_insert_eq.
    + left. rewrite lookup_insert_ne by exact Hne. exact Hrow.
Qed.

(** An order that appears in a step is a pending one. *)
Lemma orders_change_new (os os' : gmap string OrderRow) (k : string) (row : OrderRow) :
  orders_change os os' -> os !! k = None -> os' !! k = Some row ->
  exists uid amt oid url now, row = pending_order uid amt oid url now.
Proof.
  intros [-> | [(k' & uid & amt & oid & url & now & Hfree & ->)
               | (k' & now & r & Hr & Hc & ->)]] Hnone Hrow.
  - congruence.
  - destruct (decide (k' = k)) as [-> | Hne].
    + rewrite lookup_insert_eq in Hrow. injection Hrow as <-. eauto 6.
    + rewrite lookup_insert_ne in Hrow by exact Hne. congruence.
  - destruct (decide (k' = k)) as [-> | Hne]; [congruence |].
    rewrite lookup_insert_ne in Hrow by exact Hne. congruence.
Qed.

Lemma same_creation_refl (row : OrderRow) : same_creation row row.
Proof. repeat split. Qed.

Lemma same_creation_trans (a b c : OrderRow) :
  same_creation a b -> same_creation b c -> same_creation a c.
Proof. unfold same_creation. intuition congruence. Qed.

(** X12. Orders are never deleted and what was fixed at their creation
    never changes: along any sequence of transactions and handler calls an
    existing order stays in the table with the same owner, amount, coin,
    gateway order id, checkout URL and creation time. *)
Theorem orders_keep_creation_fields (os : list op) (w : World) (unique_id : string)
    (row : OrderRow) :
  orders w !! unique_id = Some row ->
  exists row', orders (exec_ops os w) !! unique_id = Some row' /\ same_creation row' row.
Proof.
  revert w row. induction os as [| o os IH]; intros w row Hrow.
  - exists row. split; [exact Hrow | apply same_creation_refl].
  - simpl.
    destruct (orders_change_old _ _ _ _ (exec_op_orders_change o w) Hrow)
      as [Hsame | (_ & now & Hcred)].
    + apply IH. exact Hsame.
    + destruct (IH _ _ Hcred) as (row' & Hrow' & Hsc). exists row'.
      split; [exact Hrow' |]. eapply same_creation_trans; [exact Hsc |].
      repeat split.
Qed.

(** X13. A credited order is final: no sequence of transactions and
    handler calls changes any of its fields again, so its payment time is
    that of the one credit. *)
Theorem credited_order_is_final (os : list op) (w : World) (unique_id : string)
    (row : OrderRow) :
  orders w !! unique_id = Some row ->
  credited row = 1 ->
  orders (exec_ops os w) !! unique_id = Some row.
Proof.
  intros Hrow Hcred. revert w Hrow. induction os as [| o os IH]; intros w Hrow;
    [exact Hrow |].
  simpl. apply IH.
  destruct (orders_change_old _ _ _ _ (exec_op_orders_change o w) Hrow)
    as [Hsame | (Hc & _)]; [exact Hsame | contradiction].
Qed.

Lemma exec_ops_flags (os : list op) (w : World) :
  (forall k row, orders w !! k = Some row -> flags_consistent row) ->
  forall k row, orders (exec_ops os w) !! k = Some row -> flags_consistent row.
Proof.
  revert w. induction os as [| o os IH]; intros w Hinv; [exact Hinv |].
  simpl. apply IH. intros k row Hrow.
  pose proof (exec_op_orders_change o w) as Hstep.
  destruct (orders w !! k) as [row0 |] eqn:Hold.
  - destruct (orders_change_old _ _ _ _ Hstep Hold) as [Hsame | (Hc & now & Hnew)].
    + rewrite Hsame in Hrow. injection Hrow as <-. eapply Hinv. exact Hold.
    + rewrite Hnew in Hrow. injection Hrow as <-. right. simpl. eauto.
  - destruct (orders_change_new _ _ _ _ Hstep Hold Hrow) as (uid & amt & oid & url & now & ->).
    left. simpl. auto.
Qed.

(** X14. In every state reached from the empty database an order is in
    one of two shapes: pending, with [status = 0], [credited = 0] and no
    payment time, or paid, with [status = 1], [credited = 1] and a payment
    time.  An order is never paid but uncredited. *)
Theorem orders_have_consistent_flags (os : list op) (unique_id : string) (row : OrderRow) :
  orders (exec_ops os init_world) !! unique_id = Some row ->
  flags_consistent row.
Proof.
  apply (exec_ops_flags os init_world).
  intros k r Hk. simpl in Hk. rewrite lookup_empty in Hk. discriminate.
Qed.

Lemma exec_op_keeps_users (o : op) (w : World) (uid : Z) :
  is_Some (users w !! uid) -> is_Some (users (exec_op o w) !! uid).
Proof.
  intros Hu.
  destruct o as [[user | uid' amt | unique_id uid' amt oid url | unique_id]
                | user args | from_id unique_id]; simpl.
  - apply ensure_user_keeps, Hu.
  - unfold deduct_points_if_enough. destruct (Dec.lt _ _); [exact Hu |].
    simpl. apply update_points_is_Some, Hu.
  - rewrite create_order_result. destruct (orders w !! unique_id); exact Hu.
  - apply mark_keeps_users, Hu.
  - rewrite cz_users. apply ensure_user_keeps, Hu.
  - unfold handle_check_payment, bind, get_order.
    destruct (orders w !! unique_id) as [row |]; [| exact Hu].
    destruct (negb (from_id =? user_id row)); [exact Hu |].
    destruct (credited row =? 1); [exact Hu |].
    destruct (check_deposit_frame unique_id w) as (reqs & Hw).
    destruct (check_deposit unique_id w) as [[resp | e] w1]; cbn [snd] in Hw; subst w1;
      [| exact Hu].
    destruct (_extract_paid_status resp); [| exact Hu].
    pose proof (mark_keeps_users unique_id (push_sent reqs w) uid Hu) as Hk.
    destruct (mark_order_paid_and_credit unique_id (push_sent reqs w)) as [[ok msg] w2].
    exact Hk.
Qed.

(** X15. Users are never deleted: a user who has a row keeps one along
    any sequence of transactions and handler calls. *)
Theorem users_are_kept (os : list op) (w : World) (uid : Z) :
  is_Some (users w !! uid) -> is_Some (users (exec_ops os w) !! uid).
Proof.
  revert w. induction os as [| o os IH]; intros w Hu; [exact Hu |].
  simpl. apply IH, exec_op_keeps_users, Hu.
Qed.

(** *** The signed body and the responses *)

Lemma dict_lookup_set_ne (d : dict) (k k' : string) (v : pyval) :
  k <> k' -> dict_lookup (dict_set d k v) k' = dict_lookup d k'.
Proof.
  intros Hne. induction d as [| [k0 v0] d IH]; simpl.
  - destruct (String.eqb_spec k k'); [contradiction | reflexivity].
  - destruct (String.eqb_spec k0 k) as [-> | Hk0]; simpl.
    + destruct (String.eqb_spec k k'); [contradiction | reflexivity].
    + destruct (String.eqb k0 k'); [reflexivity | exact IH].
Qed.

Lemma dict_lookup_filter_set (keep : pyval -> bool) (d : dict) (k : string) (v : pyval) :
  keep v = true -> dict_lookup (dict_filter keep (dict_set d k v)) k = Some v.
Proof.
  intros Hkeep. unfold dict_filter. induction d as [| [k0 v0] d IH]; simpl.
  - rewrite Hkeep. simpl. rewrite String.eqb_refl. reflexivity.
  - destruct (String.eqb_spec k0 k) as [-> | Hne]; simpl.
    + rewrite Hkeep. simpl. rewrite String.eqb_refl. reflexivity.
    + destruct (keep v0); simpl; [| exact IH].
      destruct (String.eqb_spec k0 k); [contradiction | exact IH].
Qed.

Lemma dict_set_elem (d : dict) (k : string) (v : pyval) (k' : string) (v' : pyval) :
  (k', v') ∈ dict_set d k v -> (k' = k /\ v' = v) \/ (k', v') ∈ d.
Proof.
  induction d as [| [k0 v0] d IH]; simpl.
  - intros H%list_elem_of_singleton. left. split; congruence.
  - destruct (String.eqb_spec k0 k) as [-> | Hne].
    + intros [H | H]%elem_of_cons; [left; split; congruence |].
      right. right. exact H.
    + intros [H | H]%elem_of_cons; [right; rewrite H; left |].
      destruct (IH H) as [Hl | Hr]; [left; exact Hl | right; right; exact Hr].
Qed.

Lemma php_truthy_not_empty (v : pyval) :
  _php_truthy v = true -> not_none_nor_empty v = true.
Proof.
  destruct v as [| b | n | f | s | l | d]; try reflexivity; try discriminate.
  unfold _php_truthy, not_none_nor_empty. simpl.
  destruct (String.eqb s ""); [discriminate | reflexivity].
Qed.

(** X16. What [_sign_data] sends besides the signature.  Every other
    field of the body is a field of the caller's data or the merchant id,
    and none of them is [None] or the empty string; the ["id"] field is the
    client's own id even when the data carried another one (for an id the
    filter keeps); a ["sign"] supplied by the caller never survives next to
    the computed one. *)
Theorem sign_data_body_fields (data : dict) (st : strategy) :
  (forall k v, (k, v) ∈ _sign_data data st -> k <> "sign" ->
     ((k = "id" /\ v = PStr (client_id okpay)) \/ (k, v) ∈ data)
     /\ v <> PNone /\ v <> PStr "")
  /\ (client_id okpay <> "" ->
      (keep_zero st = false -> client_id okpay <> "0") ->
      dict_lookup (_sign_data data st) "id" = Some (PStr (client_id okpay)))
  /\ (dict_wf data ->
      forall v v', (("sign", v) ∈ _sign_data data st) ->
                   (("sign", v') ∈ _sign_data data st) -> v = v').
Proof.
  unfold _sign_data. cbv zeta.
  set (payload := dict_set data "id" (PStr (client_id okpay))).
  set (filtered := if keep_zero st then dict_filter not_none_nor_empty payload
                   else dict_filter _php_truthy payload).
  assert (Hf : forall k v, (k, v) ∈ filtered ->
                 (k, v) ∈ payload /\ not_none_nor_empty v = true).
  { intros k v. unfold filtered, dict_filter.
    destruct (keep_zero st); intros [Hin Hk]%list_elem_of_In%filter_In; simpl in Hk;
      (split; [apply list_elem_of_In, Hin |]).
    - exact Hk.
    - apply php_truthy_not_empty, Hk. }
  split; [| split].
  - intros k v Hin Hk.
    destruct (dict_set_elem _ _ _ _ _ Hin) as [[-> _] | Hin']; [contradiction |].
    destruct (Hf k v Hin') as [Hp Hkeep]. split.
    + exact (dict_set_elem _ _ _ _ _ Hp).
    + split; intros ->; discriminate.
  - intros Hne Hzero. rewrite dict_lookup_set_ne by discriminate.
    unfold filtered, payload. destruct (keep_zero st).
    + apply dict_lookup_filter_set. unfold not_none_nor_empty. simpl.
      destruct (String.eqb_spec (client_id okpay) ""); [contradiction | reflexivity].
    + apply dict_lookup_filter_set. unfold _php_truthy. simpl.
      destruct (String.eqb_spec (client_id okpay) ""); [contradiction |].
      destruct (String.eqb_spec (client_id okpay) "0"); [| reflexivity].
      exfalso. apply Hzero; [reflexivity | assumption].
  - intros Hwf v v' Hv Hv'.
    assert (Hnd : NoDup (map fst (dict_set filtered "sign"
                    (PStr (PyStr.upper (md5_hexdigest lib
                       ((if use_urldecode_plus st
                         then unquote_plus lib (urlencode lib (sorted_by_key filtered))
                         else unquote lib (urlencode lib (sorted_by_key filtered)))
                        ++ "&token=" ++ client_token okpay))))))).
    { apply dict_set_keys. unfold filtered, dict_filter.
      destruct (keep_zero st); apply filter_keys, dict_set_keys, Hwf. }
    eapply wf_value_unique; eassumption.
Qed.

Lemma filters_agree_on_text (v : pyval) :
  text_value v -> not_none_nor_empty v = _php_truthy v.
Proof.
  intros (s & -> & Hs). unfold not_none_nor_empty, _php_truthy. simpl.
  destruct (String.eqb_spec s ""); [reflexivity |].
  destruct (String.eqb_spec s "0"); [contradiction | reflexivity].
Qed.

Lemma dict_set_forall (P : pyval -> Prop) (d : dict) (k : string) (v : pyval) :
  Forall (fun kv => P (snd kv)) d -> P v ->
  Forall (fun kv => P (snd kv)) (dict_set d k v).
Proof.
  intros Hd Hv. induction Hd as [| [k0 v0] d H0 Hd IH]; simpl.
  - constructor; [exact Hv | constructor].
  - destruct (String.eqb k0 k); constructor; auto.
Qed.

(** X17. The four strategies of [_post] give only two bodies when the
    payload holds nothing but strings other than ["0"] (as that of
    [check_deposit] does, and that of [pay_link] with string URLs): the two
    filters keep the same fields, so the second request repeats the first
    and the fourth repeats the third. *)
Theorem strategies_repeat_on_text_payloads (url : string) (data : dict) :
  Forall (fun kv => text_value (snd kv)) data ->
  client_id okpay <> "0" ->
  (forall decode_plus,
     _sign_data data {| keep_zero := true; use_urldecode_plus := decode_plus |}
     = _sign_data data {| keep_zero := false; use_urldecode_plus := decode_plus |})
  /\ exists a b, requests url data strategies = [a; a; b; b].
Proof.
  intros Hdata Hid.
  assert (Hfil : dict_filter not_none_nor_empty (dict_set data "id" (PStr (client_id okpay)))
                 = dict_filter _php_truthy (dict_set data "id" (PStr (client_id okpay)))).
  { assert (Hall : Forall (fun kv => text_value (snd kv))
                     (dict_set data "id" (PStr (client_id okpay)))).
    { apply dict_set_forall; [exact Hdata |]. exists (client_id okpay). auto. }
    unfold dict_filter. induction Hall as [| [k v] d Hv Hall IH]; [reflexivity |].
    simpl. rewrite IH, (filters_agree_on_text v Hv). reflexivity. }
  assert (Hsame : forall decode_plus,
            _sign_data data {| keep_zero := true; use_urldecode_plus := decode_plus |}
            = _sign_data data {| keep_zero := false; use_urldecode_plus := decode_plus |}).
  { intros decode_plus. unfold _sign_data. cbv zeta. cbn [keep_zero use_urldecode_plus].
    rewrite Hfil. reflexivity. }
  split; [exact Hsame |].
  exists {| req_url := url;
            req_body := _sign_data data {| keep_zero := false; use_urldecode_plus := true |} |},
         {| req_url := url;
            req_body := _sign_data data {| keep_zero := false; use_urldecode_plus := false |} |}.
  unfold requests, strategies. cbn [map]. rewrite !Hsame. reflexivity.
Qed.

Lemma prefix_contains (needle hay : string) :
  String.prefix needle hay = true -> PyStr.contains needle hay = true.
Proof.
  destruct hay as [| c hay]; simpl; intros ->; reflexivity.
Qed.

Lemma contains_skip (needle skipped hay : string) :
  PyStr.contains needle hay = true -> PyStr.contains needle (skipped ++ hay) = true.
Proof.
  intros H. induction skipped as [| c skipped IH]; [exact H |].
  simpl. rewrite IH. apply orb_true_r.
Qed.

Lemma prefix_split (a b hay : string) :
  String.prefix (a ++ b) hay = true ->
  exists rest, hay = (a ++ rest)%string /\ String.prefix b rest = true.
Proof.
  revert hay. induction a as [| c a IH]; intros hay H.
  - exists hay. split; [reflexivity | exact H].
  - destruct hay as [| c' hay]; [discriminate |]. simpl in H.
    destruct (Ascii.ascii_dec c c') as [-> | Hne]; [| discriminate].
    destruct (IH hay H) as (rest & -> & Hb). exists rest. split; [reflexivity | exact Hb].
Qed.

Lemma prefix_shorter (a b hay : string) :
  String.prefix (a ++ b) hay = true -> String.prefix a hay = true.
Proof.
  revert hay. induction a as [| c a IH]; intros hay H.
  - destruct hay; reflexivity.
  - destruct hay as [| c' hay]; [discriminate |]. simpl in *.
    destruct (Ascii.ascii_dec c c'); [apply IH, H | discriminate].
Qed.

Lemma contains_inner (a b c hay : string) :
  PyStr.contains (a ++ b ++ c) hay = true -> PyStr.contains b hay = true.
Proof.
  assert (Hp : forall h, String.prefix (a ++ b ++ c) h = true -> PyStr.contains b h = true).
  { intros h H. destruct (prefix_split a (b ++ c) h H) as (rest & -> & Hbc).
    apply contains_skip, prefix_contains, (prefix_shorter b c), Hbc. }
  induction hay as [| ch hay IH]; simpl.
  - intros H. pose proof (Hp EmptyString H) as Hb. exact Hb.
  - intros [H | H]%orb_true_iff.
    + exact (Hp (String ch hay) H).
    + change (PyStr.contains b (String ch hay))
        with (String.prefix b (String ch hay) || PyStr.contains b hay).
      rewrite (IH H). apply orb_true_r.
Qed.

(** X18. What [_is_auth_failed] reacts to.  Only a dict whose [msg] and
    [message] texts, joined, contain ["认证"] is an authentication failure
    (the longer marker contains that word); with the full marker
    ["身份认证失败"] it is one whatever the status says; a response that
    has neither field is never one, so [_post] returns it at once. *)
Theorem auth_failure_needs_marker (resp : pyval) :
  (_is_auth_failed resp = true ->
     exists r, resp = PDict r /\ PyStr.contains "认证" (auth_text r) = true)
  /\ (forall r, resp = PDict r ->
        PyStr.contains "身份认证失败" (auth_text r) = true ->
        _is_auth_failed resp = true)
  /\ (forall r, resp = PDict r ->
        dict_lookup r "msg" = None -> dict_lookup r "message" = None ->
        _is_auth_failed resp = false).
Proof.
  split; [| split].
  - destruct resp as [| b | n | f | s | l | r]; try discriminate.
    unfold _is_auth_failed. fold (auth_text r). intros H. exists r. split; [reflexivity |].
    apply orb_true_iff in H as [H | H].
    + apply (contains_inner "身份" "认证" "失败"). exact H.
    + apply andb_true_iff in H as [_ H]. exact H.
  - intros r -> H. unfold _is_auth_failed. fold (auth_text r). rewrite H. reflexivity.
  - intros r -> Hmsg Hmessage. unfold _is_auth_failed, dict_get_default.
    rewrite Hmsg, Hmessage. cbn [py_str].
    change (PyStr.contains "身份认证失败" ("" ++ "")) with false.
    change (PyStr.contains "认证" ("" ++ "")) with false.
    rewrite andb_false_r. reflexivity.
Qed.

(** X19. The checkout URL [_extract_pay_result] returns is [str] of the
    first truthy one among the six candidate fields, in the order
    [data.pay_url], [data.payUrl], [data.url], [data.link], [pay_url],
    [payUrl], and [""] when there is none.  Success needs such a field: a
    response that is no dict, or has no truthy candidate, fails whatever its
    code and status say. *)
Theorem extract_pay_result_url (resp : pyval) :
  (forall r, resp = PDict r ->
     snd (_extract_pay_result resp)
     = match List.find truthy (url_candidates r) with
       | Some v => py_str v
       | None => ""
       end)
  /\ (fst (fst (_extract_pay_result resp)) = true ->
      exists r v, resp = PDict r /\ List.find truthy (url_candidates r) = Some v
                  /\ snd (_extract_pay_result resp) = py_str v)
  /\ ((forall r, resp = PDict r -> List.find truthy (url_candidates r) = None) ->
      fst (fst (_extract_pay_result resp)) = false
      /\ snd (_extract_pay_result resp) = "").
Proof.
  assert (Hurl : forall r,
            py_or (dict_get (data_of r) "pay_url")
              (py_or (dict_get (data_of r) "payUrl")
                 (py_or (dict_get (data_of r) "url")
                    (py_or (dict_get (data_of r) "link")
                       (py_or (dict_get r "pay_url")
                          (py_or (dict_get r "payUrl") (PStr ""))))))
            = match List.find truthy (url_candidates r) with
              | Some v => v
              | None => PStr ""
              end).
  { intros r. unfold url_candidates, py_or. simpl.
    repeat match goal with |- context [truthy ?v] => destruct (truthy v) eqn:?; try reflexivity end. }
  split; [| split].
  - intros r ->. unfold _extract_pay_result. cbv zeta. cbn [snd]. rewrite Hurl.
    destruct (List.find truthy (url_candidates r)); reflexivity.
  - destruct resp as [| b | n | f | s | l | r]; try discriminate.
    unfold _extract_pay_result. cbv zeta. cbn [fst snd]. rewrite Hurl.
    destruct (List.find truthy (url_candidates r)) as [v |] eqn:Hfind; [| discriminate].
    intros _. exists r, v. split; [reflexivity |]. split; [exact Hfind |].
    reflexivity.
  - intros Hnone. destruct resp as [| b | n | f | s | l | r]; try (split; reflexivity).
    unfold _extract_pay_result. cbv zeta. cbn [fst snd]. rewrite Hurl.
    rewrite (Hnone r eq_refl). split; reflexivity.
Qed.
End Bot.

(** ** The properties on the sample data *)

(** C1 as stated fails: Alice tops up [3.0000000000000000000000000015],
    an amount within the bounds, and her check credits it.  The order
    holds the amount as typed; her balance goes from 0 to
    [3.000000000000000000000000002], which is more than the amount. *)
Lemma credit_rounds_the_sum :
  let w1 := snd (cz Sample.lib Sample.okpay Sample.cfg Sample.env_paid Sample.alice
                   [ArgFinite SampleX.amount29] init_world) in
  let checked := handle_check_payment Sample.lib Sample.okpay Sample.env_paid 7
                   "cz_7_1700000001_a1b2c3" w1 in
  Dec.to_str SampleX.amount29 = "3.0000000000000000000000000015"
  /\ orders w1 !! "cz_7_1700000001_a1b2c3"
     = Some (pending_order 7 SampleX.amount29 "G-1" "https://pay.example/G-1" 1700000002)
  /\ fst (get_points 7 w1) = Dec.zero
  /\ fst checked = reply_text (msg_credited SampleX.amount29)
  /\ fst (get_points 7 (snd checked)) = mkDecimal 3000000000000000000000000002 (-27)
  /\ Dec.cmp (fst (get_points 7 (snd checked)))
       (Dec.exact_add (fst (get_points 7 w1)) SampleX.amount29) = Gt.
Proof.
  cbv zeta. repeat (split; [vm_compute; reflexivity |]). vm_compute. reflexivity.
Qed.

(** C1, amended, on Alice's second top-up: with a balance of 5 and a
    pending order of 7.5, the two calls taking turns leave 12.5. *)
Lemma credit_exactly_once_witness :
  reachable Sample.lib Sample.okpay Sample.cfg Sample.env_paid SampleX.w_second_topup
  /\ orders SampleX.w_second_topup !! "cz_7_1700000005_a1b2c3" = Some SampleX.order75
  /\ users SampleX.w_second_topup !! 7 = Some (Sample.alice_row (Dec.of_Z 5))
  /\ gateway_reports_paid Sample.lib Sample.okpay Sample.env_paid "cz_7_1700000005_a1b2c3"
  /\ exists ra rb w',
       run_pair Sample.lib Sample.okpay Sample.env_paid 7 "cz_7_1700000005_a1b2c3"
         [true; false; true; false; true; false] ChkLookup ChkLookup
         SampleX.w_second_topup
       = ((ChkDone ra, ChkDone rb), w')
       /\ users w' = {[ 7 := Sample.alice_row (mkDecimal 125 (-1)) ]}.
Proof.
  assert (Hreach : reachable Sample.lib Sample.okpay Sample.cfg Sample.env_paid
                     SampleX.w_second_topup).
  { apply (reach_env Sample.lib Sample.okpay Sample.cfg Sample.env_paid
             (exec_ops Sample.lib Sample.okpay Sample.cfg Sample.env_paid
                [OpCz Sample.alice [ArgFinite (Dec.of_Z 5)];
                 OpCheckPayment 7 "cz_7_1700000001_a1b2c3";
                 OpCz Sample.alice [ArgFinite (mkDecimal 75 (-1))]] init_world)).
    - cbn [exec_ops]. repeat (apply reach_op; [exact I |]). apply reach_init.
    - vm_compute. reflexivity.
    - vm_compute. reflexivity. }
  assert (Hpaid : gateway_reports_paid Sample.lib Sample.okpay Sample.env_paid
                    "cz_7_1700000005_a1b2c3").
  { intros w. exists Sample.resp_paid. split; reflexivity. }
  split; [exact Hreach |]. split; [reflexivity |]. split; [reflexivity |].
  split; [exact Hpaid |].
  destruct (credit_exactly_once Sample.lib Sample.okpay Sample.cfg Sample.env_paid
              SampleX.w_second_topup "cz_7_1700000005_a1b2c3" SampleX.order75
              Hreach eq_refl eq_refl Hpaid) as (u & Hu & _ & Hrun & _).
  injection Hu as <-.
  destruct (Hrun [true; false; true; false; true; false]) as (ra & rb & w' & Heq & Husers & _).
  - unfold turns. simpl. lia.
  - unfold turns. simpl. lia.
  - exists ra, rb, w'. split; [exact Heq |]. rewrite Husers. vm_compute. reflexivity.
Defined.

(** C2 on Alice's balance of 5: a debit of 6 is refused and one of 1.5
    leaves 3.5. *)
Lemma deduct_points_if_enough_witness :
  deduct_points_if_enough 7 (Dec.of_Z 6) Sample.w_alice5 = (false, Sample.w_alice5)
  /\ fst (get_points 7 (snd (deduct_points_if_enough 7 (mkDecimal 15 (-1)) Sample.w_alice5)))
     = mkDecimal 35 (-1)
  /\ balances_nonneg
       (exec_txns Sample.env_paid
          [TxDeduct 7 (Dec.of_Z 4); TxDeduct 7 (Dec.of_Z 4); TxDeduct 7 (Dec.of_Z 1)]
          Sample.w_alice5).
Proof.
  split; [| split].
  - apply (proj1 (deduct_points_if_enough_atomic Sample.env_paid Sample.w_alice5 7
                    (Dec.of_Z 6))). reflexivity.
  - destruct (deduct_points_if_enough_atomic Sample.env_paid Sample.w_alice5 7
                (mkDecimal 15 (-1))) as (_ & Hok & _).
    destruct (Hok eq_refl) as (_ & Hbal & _).
    exact (Hbal (Sample.alice_row (Dec.of_Z 5)) eq_refl).
  - apply (proj2 (proj2 (deduct_points_if_enough_atomic Sample.env_paid Sample.w_alice5 7
                           (Dec.of_Z 1)))).
    + intros uid row Hrow. cbn [users Sample.w_alice5] in Hrow.
      apply lookup_singleton_Some in Hrow as [_ <-].
      unfold Dec.nonneg. simpl. lia.
    + intros k row Hrow. simpl in Hrow. rewrite lookup_empty in Hrow. discriminate.
    + repeat constructor.
Defined.



(** C4 as stated fails: a status of ["1"], accepted for creation results,
    and a payment status ["PAID"] are not counted as paid. *)
Lemma paid_status_not_as_specified :
  spec_paid Sample.lib Sample.resp_status_1 = true
  /\ _extract_paid_status Sample.lib Sample.resp_status_1 = false
  /\ spec_paid Sample.lib Sample.resp_upper_paid = true
  /\ _extract_paid_status Sample.lib Sample.resp_upper_paid = false.
Proof. repeat split; reflexivity. Qed.

(** C4, amended, on a response with code 10000 and payment status
    ["paid"]. *)
Lemma paid_status_witness :
  lower_fixes Sample.lib Spec.paid_words
  /\ _extract_paid_status Sample.lib Sample.resp_paid = true.
Proof.
  assert (Hfix : lower_fixes Sample.lib Spec.paid_words).
  { repeat constructor. }
  split; [exact Hfix |].
  exact (proj2 (paid_status_normalisation Sample.lib Sample.resp_paid Hfix)
           eq_refl eq_refl).
Defined.

(** C5 on a payload with a zero, an empty string and an absent value,
    under the first strategy: three pairs are signed, in key order. *)
Lemma sign_data_witness :
  dict_wf Sample.payload
  /\ dict_lookup
       (_sign_data Sample.lib Sample.okpay Sample.payload
          {| keep_zero := false; use_urldecode_plus := true |}) "sign"
     = Some (PStr (spec_signature Sample.lib Sample.okpay
                     [ ("amount", PStr "5"); ("id", PStr "10001");
                       ("unique_id", PStr "cz_7_1700000001_a1b2c3") ] true)).
Proof.
  assert (Hwf : dict_wf Sample.payload).
  { unfold dict_wf. apply (bool_decide_unpack _). vm_compute. exact I. }
  split; [exact Hwf |].
  apply (proj2 (sign_data_procedure Sample.lib Sample.okpay Sample.payload
                  {| keep_zero := false; use_urldecode_plus := true |} Hwf)).
  - change (spec_kept Sample.okpay false Sample.payload)
      with ([("unique_id", PStr "cz_7_1700000001_a1b2c3")]
            ++ [("amount", PStr "5"); ("id", PStr "10001")])%list.
    symmetry. apply Permutation_cons_append.
  - repeat constructor.
Defined.

(** C6 on a gateway that refuses every signature and on one that never
    answers. *)
Lemma post_witness :
  fst (_post Sample.lib Sample.okpay Sample.env_refused "payLink" Sample.payload init_world)
  = Return Sample.resp_refused_with_url
  /\ exists e,
       fst (_post Sample.lib Sample.okpay Sample.env_down "payLink" Sample.payload init_world)
       = Raise e.
Proof.
  split.
  - destruct (post_tries_four_strategies Sample.lib Sample.okpay Sample.env_refused
                "payLink" Sample.payload init_world) as (_ & _ & _ & Hex & _).
    destruct (Hex eq_refl) as [_ Hlast]. exact Hlast.
  - apply (proj1 (proj2 (proj2 (proj2 (proj2
             (post_tries_four_strategies Sample.lib Sample.okpay Sample.env_down
                "payLink" Sample.payload init_world)))))).
    reflexivity.
Defined.


(** C8 on Alice's order and user 8. *)
Lemma check_payment_ownership_witness :
  handle_check_payment Sample.lib Sample.okpay Sample.env_paid 8
    "cz_7_1700000001_a1b2c3" Sample.w_pending
  = (reply_text MSG_NOT_YOURS, Sample.w_pending).
Proof.
  apply (check_payment_ownership Sample.lib Sample.okpay Sample.env_paid Sample.w_pending
           8 "cz_7_1700000001_a1b2c3" Sample.order5).
  - reflexivity.
  - simpl. lia.
Defined.

(** C9 after Alice's top-up of 5 and her check of the payment. *)
Lemma credited_orders_are_paid_witness :
  exists row,
    orders (exec_ops Sample.lib Sample.okpay Sample.cfg Sample.env_paid
              [OpCz Sample.alice [ArgFinite (Dec.of_Z 5)];
               OpCheckPayment 7 "cz_7_1700000001_a1b2c3"] init_world)
    !! "cz_7_1700000001_a1b2c3" = Some row
    /\ credited row = 1 /\ status row = 1.
Proof.
  eexists. split; [vm_compute; reflexivity |]. split; [reflexivity |].
  refine (proj1 (credited_orders_are_paid Sample.lib Sample.okpay Sample.cfg Sample.env_paid
                   [OpCz Sample.alice [ArgFinite (Dec.of_Z 5)];
                    OpCheckPayment 7 "cz_7_1700000001_a1b2c3"]
                   "cz_7_1700000001_a1b2c3" _ _ _)).
  - vm_compute. reflexivity.
  - reflexivity.
Defined.

(** C10 on the order whose owner has no row. *)
Lemma credit_without_user_row_witness :
  users Sample.w_orphan !! 7 = None
  /\ fst (mark_order_paid_and_credit Sample.env_paid "cz_7_1700000001_a1b2c3" Sample.w_orphan)
     = (true, msg_credited (Dec.of_Z 5))
  /\ users (snd (mark_order_paid_and_credit Sample.env_paid "cz_7_1700000001_a1b2c3"
                   Sample.w_orphan)) = ∅.
Proof.
  split; [reflexivity |].
  destruct (credit_without_user_row Sample.env_paid Sample.w_orphan
              "cz_7_1700000001_a1b2c3" Sample.order5) as (Hres & _ & Hu & _).
  - reflexivity.
  - simpl. lia.
  - reflexivity.
  - split; [exact Hres | exact Hu].
Defined.

(** ** The further properties on the sample data *)

(** X1 on Alice with a balance of 5: registering her again keeps it. *)
Lemma ensure_user_upsert_witness :
  fst (get_points 7 (snd (ensure_user Sample.env_paid Sample.alice Sample.w_alice5)))
  = Dec.of_Z 5
  /\ is_Some (users (snd (ensure_user Sample.env_paid Sample.alice init_world)) !! 7).
Proof.
  split.
  - exact (proj1 (ensure_user_upsert Sample.env_paid Sample.alice Sample.w_alice5) 7).
  - exact (proj1 (proj2 (ensure_user_upsert Sample.env_paid Sample.alice init_world))).
Defined.


(** X3 on a user who has no row: a debit of 1.5 is refused and nothing
    is written. *)
Lemma deduct_points_frame_witness :
  users init_world !! 7 = None
  /\ snd (deduct_points_if_enough 7 (mkDecimal 15 (-1)) init_world) = init_world
  /\ fst (deduct_points_if_enough 7 (mkDecimal 15 (-1)) init_world) = false.
Proof.
  split; [reflexivity |].
  destruct (deduct_points_frame 7 (mkDecimal 15 (-1)) init_world) as (_ & _ & _ & _ & H).
  destruct (H eq_refl) as [Hw Hok]. split; [exact Hw | exact Hok].
Defined.

(** X4 on an identifier no order has. *)
Lemma mark_order_frame_witness :
  orders Sample.w_alice5 !! "cz_7_1700000001_a1b2c3" = None
  /\ mark_order_paid_and_credit Sample.env_paid "cz_7_1700000001_a1b2c3" Sample.w_alice5
     = ((false, MSG_ORDER_MISSING), Sample.w_alice5).
Proof.
  split; [reflexivity |].
  exact (proj1 (mark_order_frame Sample.env_paid "cz_7_1700000001_a1b2c3" Sample.w_alice5)
           eq_refl).
Defined.

(** X5: Alice checks her credited order, and her pending order while the
    gateway reports it unpaid. *)
Lemma check_payment_without_credit_witness :
  handle_check_payment Sample.lib Sample.okpay Sample.env_paid 7 "cz_7_1700000001_a1b2c3"
    SampleX.w_credited
  = (reply_text MSG_CREDITED_BEFORE, SampleX.w_credited)
  /\ fst (handle_check_payment Sample.lib Sample.okpay SampleX.env_unpaid 7
            "cz_7_1700000001_a1b2c3" Sample.w_pending)
     = reply_text MSG_NOT_PAID
  /\ users (snd (handle_check_payment Sample.lib Sample.okpay SampleX.env_unpaid 7
                   "cz_7_1700000001_a1b2c3" Sample.w_pending))
     = users Sample.w_pending.
Proof.
  split.
  - exact (proj1 (proj2 (check_payment_without_credit Sample.lib Sample.okpay Sample.env_paid
                           7 "cz_7_1700000001_a1b2c3" SampleX.w_credited))
             SampleX.order5_credited eq_refl eq_refl eq_refl).
  - assert (Hnc : credited Sample.order5 <> 1) by discriminate.
    destruct (proj2 (proj2 (check_payment_without_credit Sample.lib Sample.okpay
                              SampleX.env_unpaid 7 "cz_7_1700000001_a1b2c3"
                              Sample.w_pending))
                Sample.order5 eq_refl eq_refl Hnc) as (Hu & _ & Hreply).
    change (fst (check_deposit Sample.lib Sample.okpay SampleX.env_unpaid
                   "cz_7_1700000001_a1b2c3" Sample.w_pending))
      with (Return SampleX.resp_unpaid) in Hreply.
    rewrite (Hreply eq_refl). split; [reflexivity | exact Hu].
Defined.

(** X7 on callback data that no branch handles. *)
Lemma button_click_checkpay_witness :
  button_click Sample.lib Sample.okpay Sample.env_paid 7 "btn_unknown" Sample.w_pending
  = (Return None, Sample.w_pending).
Proof.
  apply (proj2 (button_click_checkpay Sample.lib Sample.okpay Sample.env_paid 7
                  "cz_7_1700000001_a1b2c3" "G-1" "https://pay.example/G-1" (Dec.of_Z 5)
                  Sample.w_pending)).
  - simpl. intros H. repeat (destruct H as [H | H]; [discriminate H |]). exact H.
  - reflexivity.
Defined.

(** X8: Alice, with a balance of 5, sends [/dt] with a name and a number
    and is charged 1.8. *)
Lemma paid_command_charges_witness :
  length SampleX.words_dt = 3%nat
  /\ fst (get_points 7 (snd (paid_command Sample.env_paid Sample.alice SampleX.words_dt
                               CmdDt Sample.w_alice5)))
     = mkDecimal 32 (-1).
Proof.
  split; [reflexivity |].
  destruct (proj2 (proj2 (proj2 (paid_command_charges Sample.env_paid Sample.alice
                                   SampleX.words_dt CmdDt Sample.w_alice5)))
              eq_refl eq_refl) as (_ & Hbal & _).
  exact Hbal.
Defined.

(** X9 on [/cz 5 6]. *)
Lemma cz_rejects_bad_arguments_witness :
  fst (cz Sample.lib Sample.okpay Sample.cfg Sample.env_paid Sample.alice
         [ArgFinite (Dec.of_Z 5); ArgFinite (Dec.of_Z 6)] init_world)
  = Return (reply_text USAGE_CZ).
Proof.
  assert (Hlen : length [ArgFinite (Dec.of_Z 5); ArgFinite (Dec.of_Z 6)] <> 1%nat)
    by discriminate.
  rewrite (proj1 (cz_rejects_bad_arguments Sample.lib Sample.okpay Sample.cfg Sample.env_paid
                    Sample.alice [ArgFinite (Dec.of_Z 5); ArgFinite (Dec.of_Z 6)]
                    init_world) Hlen).
  reflexivity.
Defined.

(** X10 on a store that already holds the identifier [cz] generates. *)
Lemma cz_keeps_existing_order_witness :
  orders SampleX.w_taken !! "cz_7_1700000001_a1b2c3" = Some Sample.order5
  /\ orders (snd (cz Sample.lib Sample.okpay Sample.cfg Sample.env_paid Sample.alice
                    [ArgFinite (Dec.of_Z 9)] SampleX.w_taken))
     = orders SampleX.w_taken.
Proof.
  split; [reflexivity |].
  exact (proj2 (cz_keeps_existing_order Sample.lib Sample.okpay Sample.cfg Sample.env_paid
                  Sample.alice (Dec.of_Z 9) SampleX.w_taken Sample.resp_paid
                  "G-1" "https://pay.example/G-1" Sample.order5
                  eq_refl eq_refl eq_refl eq_refl eq_refl)).
Defined.

(** X12: Alice's pending order keeps what was fixed at its creation
    while it is paid and credited. *)
Lemma orders_keep_creation_fields_witness :
  orders Sample.w_pending !! "cz_7_1700000001_a1b2c3" = Some Sample.order5
  /\ exists row',
       orders (exec_ops Sample.lib Sample.okpay Sample.cfg Sample.env_paid
                 [OpCheckPayment 7 "cz_7_1700000001_a1b2c3"] Sample.w_pending)
         !! "cz_7_1700000001_a1b2c3" = Some row'
       /\ same_creation row' Sample.order5.
Proof.
  split; [reflexivity |].
  exact (orders_keep_creation_fields Sample.lib Sample.okpay Sample.cfg Sample.env_paid
           [OpCheckPayment 7 "cz_7_1700000001_a1b2c3"] Sample.w_pending
           "cz_7_1700000001_a1b2c3" Sample.order5 eq_refl).
Defined.

(** X13: Alice's credited order is the same after another check and
    another credit transaction. *)
Lemma credited_order_is_final_witness :
  orders SampleX.w_credited !! "cz_7_1700000001_a1b2c3" = Some SampleX.order5_credited
  /\ credited SampleX.order5_credited = 1
  /\ orders (exec_ops Sample.lib Sample.okpay Sample.cfg Sample.env_paid
               [OpCheckPayment 7 "cz_7_1700000001_a1b2c3";
                OpTxn (TxMark "cz_7_1700000001_a1b2c3")] SampleX.w_credited)
       !! "cz_7_1700000001_a1b2c3" = Some SampleX.order5_credited.
Proof.
  split; [reflexivity |]. split; [reflexivity |].
  exact (credited_order_is_final Sample.lib Sample.okpay Sample.cfg Sample.env_paid
           [OpCheckPayment 7 "cz_7_1700000001_a1b2c3";
            OpTxn (TxMark "cz_7_1700000001_a1b2c3")] SampleX.w_credited
           "cz_7_1700000001_a1b2c3" SampleX.order5_credited eq_refl eq_refl).
Defined.

(** X14 on the order Alice's top-up of 5 creates and her check credits. *)
Lemma orders_have_consistent_flags_witness :
  orders (exec_ops Sample.lib Sample.okpay Sample.cfg Sample.env_paid
            [OpCz Sample.alice [ArgFinite (Dec.of_Z 5)];
             OpCheckPayment 7 "cz_7_1700000001_a1b2c3"] init_world)
    !! "cz_7_1700000001_a1b2c3"
  = Some {| user_id := 7; amount := Dec.of_Z 5; coin := "USDT";
            order_id := "G-1"; pay_url := "https://pay.example/G-1";
            status := 1; credited := 1; created_at := 1700000002;
            paid_at := Some 1700000003 |}
  /\ flags_consistent
       {| user_id := 7; amount := Dec.of_Z 5; coin := "USDT";
          order_id := "G-1"; pay_url := "https://pay.example/G-1";
          status := 1; credited := 1; created_at := 1700000002;
          paid_at := Some 1700000003 |}.
Proof.
  assert (Hrow : orders (exec_ops Sample.lib Sample.okpay Sample.cfg Sample.env_paid
                           [OpCz Sample.alice [ArgFinite (Dec.of_Z 5)];
                            OpCheckPayment 7 "cz_7_1700000001_a1b2c3"] init_world)
                   !! "cz_7_1700000001_a1b2c3"
                 = Some {| user_id := 7; amount := Dec.of_Z 5; coin := "USDT";
                           order_id := "G-1"; pay_url := "https://pay.example/G-1";
                           status := 1; credited := 1; created_at := 1700000002;
                           paid_at := Some 1700000003 |}).
  { vm_compute. reflexivity. }
  split; [exact Hrow |].
  exact (orders_have_consistent_flags Sample.lib Sample.okpay Sample.cfg Sample.env_paid
           _ _ _ Hrow).
Defined.

(** X15: Alice keeps her row through a refused debit and a [/cz]
    without an amount. *)
Lemma users_are_kept_witness :
  is_Some (users Sample.w_alice5 !! 7)
  /\ is_Some (users (exec_ops Sample.lib Sample.okpay Sample.cfg Sample.env_paid
                       [OpTxn (TxDeduct 7 (Dec.of_Z 6)); OpCz Sample.alice []]
                       Sample.w_alice5) !! 7).
Proof.
  assert (Hrow : is_Some (users Sample.w_alice5 !! 7)).
  { exists (Sample.alice_row (Dec.of_Z 5)). reflexivity. }
  split; [exact Hrow |].
  exact (users_are_kept Sample.lib Sample.okpay Sample.cfg Sample.env_paid
           [OpTxn (TxDeduct 7 (Dec.of_Z 6)); OpCz Sample.alice []] Sample.w_alice5 7 Hrow).
Defined.

(** X16 on data that carries an ["id"] of its own: the body has the
    client's. *)
Lemma sign_data_body_fields_witness :
  dict_lookup
    (_sign_data Sample.lib Sample.okpay
       [ ("id", PStr "999"); ("unique_id", PStr "cz_7_1700000001_a1b2c3") ]
       {| keep_zero := false; use_urldecode_plus := true |}) "id"
  = Some (PStr "10001").
Proof.
  apply (proj1 (proj2 (sign_data_body_fields Sample.lib Sample.okpay
                         [ ("id", PStr "999");
                           ("unique_id", PStr "cz_7_1700000001_a1b2c3") ]
                         {| keep_zero := false; use_urldecode_plus := true |}))).
  - discriminate.
  - intros _. discriminate.
Defined.

(** X17 on the payload of [check_deposit]. *)
Lemma strategies_repeat_witness :
  Forall (fun kv => text_value (snd kv)) [ ("unique_id", PStr "cz_7_1700000001_a1b2c3") ]
  /\ exists a b,
       requests Sample.lib Sample.okpay (client_base ++ "checkDeposit")
         [ ("unique_id", PStr "cz_7_1700000001_a1b2c3") ] strategies
       = [a; a; b; b].
Proof.
  assert (Htext : Forall (fun kv => text_value (snd kv))
                    [ ("unique_id", PStr "cz_7_1700000001_a1b2c3") ]).
  { constructor; [| constructor]. exists "cz_7_1700000001_a1b2c3".
    split; [reflexivity | discriminate]. }
  assert (Hid : client_id Sample.okpay <> "0") by discriminate.
  split; [exact Htext |].
  exact (proj2 (strategies_repeat_on_text_payloads Sample.lib Sample.okpay
                  (client_base ++ "checkDeposit")
                  [ ("unique_id", PStr "cz_7_1700000001_a1b2c3") ] Htext Hid)).
Defined.

(** X18: the refusing gateway's response is an authentication failure,
    the paying gateway's, which has no message, is none. *)
Lemma auth_failure_needs_marker_witness :
  _is_auth_failed Sample.lib Sample.resp_refused_with_url = true
  /\ _is_auth_failed Sample.lib Sample.resp_paid = false.
Proof.
  split.
  - exact (proj1 (proj2 (auth_failure_needs_marker Sample.lib Sample.resp_refused_with_url))
             _ eq_refl eq_refl).
  - exact (proj2 (proj2 (auth_failure_needs_marker Sample.lib Sample.resp_paid))
             _ eq_refl eq_refl eq_refl).
Defined.

(** X19 on a response whose nested URL is empty: the top-level one is
    taken. *)
Lemma extract_pay_result_url_witness :
  snd (_extract_pay_result Sample.lib (PDict SampleX.resp_top_url))
  = "https://pay.example/top".
Proof.
  exact (proj1 (extract_pay_result_url Sample.lib (PDict SampleX.resp_top_url))
           SampleX.resp_top_url eq_refl).
Defined.
